(** * formspree: the submission views (formspree/forms/views.py)

    A shallow embedding of the request handlers [send],
    [request_unconfirm_form], [unconfirm_form], [unconfirm_multiple],
    [resend_confirmation], [unblock_email] and [export_submissions], with
    the database, the nonce store, the mail outbox, the session and the
    clock written out as an explicit [World] that every handler threads
    through.

    Python values are modelled as follows.
    - [str] is [string], the text in UTF-8; [None]-able attributes are
      [option].
    - a [dict] with string keys is a [gmap string string].
    - the Form table is a [gmap Z Form] keyed by primary key.
    - an uncaught exception is the [Raised] outcome of a handler.
    - what Flask itself answers (the page of an HTTP exception raised
      inside a view) is a response with the [HttpError] body.
    Logging ([g.log]) has no effect on the response or the stores and is
    left out. *)

From Stdlib Require Import Ascii String ZArith.
From stdpp Require Import base option list strings pretty gmap fin_maps.

Open Scope string_scope.
Open Scope Z_scope.

(** ** Python string methods used by the views *)

Module Py.

(** [s.rstrip(c)] for a one-character [c]. *)
Fixpoint rstrip (c : ascii) (s : string) : string :=
  match s with
  | EmptyString => EmptyString
  | String a s' =>
      match rstrip c s' with
      | EmptyString => if Ascii.eqb a c then EmptyString else String a EmptyString
      | r => String a r
      end
  end.

(** [s.startswith(p)]. *)
Definition startswith (s p : string) : bool := String.prefix p s.

(** [p in s] on strings. *)
Fixpoint contains (s p : string) : bool :=
  String.prefix p s ||
  match s with
  | EmptyString => false
  | String _ s' => contains s' p
  end.

Definition lower_ascii (a : ascii) : ascii :=
  let n := nat_of_ascii a in
  if ((65 <=? n) && (n <=? 90))%nat then ascii_of_nat (n + 32) else a.

(** A-Z to a-z, every other byte as it is. *)
Fixpoint lower_bytes (s : string) : string :=
  match s with
  | EmptyString => EmptyString
  | String a s' => String (lower_ascii a) (lower_bytes s')
  end.

(** Text without a character outside ASCII. *)
Fixpoint is_ascii (s : string) : bool :=
  match s with
  | EmptyString => true
  | String a s' => (nat_of_ascii a <? 128)%nat && is_ascii s'
  end.

(** [s.lower()].  Python lower-cases a [str] by the case mappings of the
    Unicode character database, letters outside ASCII included; these
    tables are no part of this development, so the method is a parameter
    of it, and every property is proved for every [lower].  What is known
    of it is its value on ASCII text, where it maps A-Z to a-z and leaves
    every other character alone. *)
Class Unicode := {
  lower : string → string;
  lower_ascii_text : ∀ s, is_ascii s = true → lower s = lower_bytes s
}.

(** Truth value of a string-or-None: [None] and [''] are falsy. *)
Definition truthy (o : option string) : bool :=
  match o with
  | Some (String _ _) => true
  | _ => false
  end.

(** [str(x)] / ['{}'.format(x)] of a string-or-None. *)
Definition str (o : option string) : string :=
  match o with
  | Some s => s
  | None => "None"
  end.

(** The double-quote character, for texts that contain it. *)
Definition dq : string := String "034"%char EmptyString.

End Py.

(** ** Data model *)

(** A submitted payload: a Python dict with string keys. *)
Abbreviation Data := (gmap string string).

(** Modelled from the spec: the Form row (formspree/forms/models.py is
    missing).  The fields are those the views read or write, plus the
    counters and plan flags that section 3 of the specification lists. *)
Record Form := Form_mk {
  form_id : option Z;               (* primary key, None until first persisted *)
  form_hash : option string;        (* HASH(email, host), the lookup key *)
  form_email : string;
  form_host : option string;
  form_sitewide : bool;
  form_confirmed : bool;
  form_confirm_sent : bool;
  form_disabled : bool;
  form_uses_ajax : option bool;     (* tri-state *)
  form_captcha_disabled : bool;
  form_features : list string;      (* capabilities of the owning account *)
  form_counter : nat;               (* submissions this period *)
  form_allowance : nat;             (* plan allowance per period *)
  form_disable_email : bool         (* owner opted out of per-submission email *)
}.

Definition set_id (v : option Z) (f : Form) : Form :=
  Form_mk v (form_hash f) (form_email f) (form_host f) (form_sitewide f)
    (form_confirmed f) (form_confirm_sent f) (form_disabled f) (form_uses_ajax f)
    (form_captcha_disabled f) (form_features f) (form_counter f)
    (form_allowance f) (form_disable_email f).

Definition set_host (v : option string) (f : Form) : Form :=
  Form_mk (form_id f) (form_hash f) (form_email f) v (form_sitewide f)
    (form_confirmed f) (form_confirm_sent f) (form_disabled f) (form_uses_ajax f)
    (form_captcha_disabled f) (form_features f) (form_counter f)
    (form_allowance f) (form_disable_email f).

Definition set_confirmed (v : bool) (f : Form) : Form :=
  Form_mk (form_id f) (form_hash f) (form_email f) (form_host f) (form_sitewide f)
    v (form_confirm_sent f) (form_disabled f) (form_uses_ajax f)
    (form_captcha_disabled f) (form_features f) (form_counter f)
    (form_allowance f) (form_disable_email f).

Definition set_confirm_sent (v : bool) (f : Form) : Form :=
  Form_mk (form_id f) (form_hash f) (form_email f) (form_host f) (form_sitewide f)
    (form_confirmed f) v (form_disabled f) (form_uses_ajax f)
    (form_captcha_disabled f) (form_features f) (form_counter f)
    (form_allowance f) (form_disable_email f).

Definition set_uses_ajax (v : option bool) (f : Form) : Form :=
  Form_mk (form_id f) (form_hash f) (form_email f) (form_host f) (form_sitewide f)
    (form_confirmed f) (form_confirm_sent f) (form_disabled f) v
    (form_captcha_disabled f) (form_features f) (form_counter f)
    (form_allowance f) (form_disable_email f).

Definition set_counter (v : nat) (f : Form) : Form :=
  Form_mk (form_id f) (form_hash f) (form_email f) (form_host f) (form_sitewide f)
    (form_confirmed f) (form_confirm_sent f) (form_disabled f) (form_uses_ajax f)
    (form_captcha_disabled f) (form_features f) v
    (form_allowance f) (form_disable_email f).

(** [form.has_feature(name)]. *)
Definition has_feature (f : Form) (name : string) : bool :=
  bool_decide (name ∈ form_features f).

(** What [request.get_json()] does with the body of a request.  The bodies
    considered are those that hold no JSON, a JSON object of strings, or
    text that is declared as JSON and cannot be parsed. *)
Inductive JsonBody :=
| No_json                                        (* returns None *)
| Json_object (data : Data) (keys : list string) (* returns the dict; its keys in order *)
| Json_malformed.                                (* raises BadRequest *)

(** The parts of a Flask request the views look at. *)
Record Request := Request_mk {
  req_method : string;                        (* request.method *)
  req_form : list (string * string);          (* request.form, in submission order *)
  req_json : JsonBody;                        (* request.get_json() *)
  req_referrer : option string;               (* request.referrer *)
  req_wants_json : bool;                      (* request_wants_json() *)
  req_path : string;                          (* request.path *)
  req_browser : option string;                (* request.user_agent.browser *)
  req_form_ids : list Z                       (* request.form.getlist('form_ids'), as primary keys *)
}.

(** Outgoing mail. *)
Inductive MailBody :=
| ConfirmationMail (link : string)
| SubmissionMail (data : Data) (keys : list string)
| UnsubscribeMail (url email : string) (host : option string).

Record Email := Email_mk {
  mail_to : string;
  mail_subject : string;
  mail_sender : string;
  mail_body : MailBody
}.

(** Reads of external state that a claim may speak about. *)
Inductive Event :=
| Query_get (pk : Z)                (* Form.query.get(pk) *)
| Query_hashid (hashid : string)    (* Form.get_with_hashid(hashid) *)
| Query_hash (h : string)           (* Form.query.filter_by(hash=h).first() *)
| Captcha_check.                    (* verify_captcha(...) *)

(** Everything outside the request that a handler reads or writes. *)
Record World := World_mk {
  forms : gmap Z Form;                                       (* committed Form rows *)
  hostnames : gmap string (option string * option string);   (* host nonces *)
  minted : nat;                                              (* nonces minted so far *)
  first_submissions : gmap Z Data;                           (* payloads pending confirmation *)
  outbox : list Email;                                       (* mail handed to the transport *)
  submissions : list (Z * Data);                             (* archived Submission rows *)
  unconfirming : option string;                              (* session['unconfirming'] *)
  trace : list Event;
  clock : nat                                                (* the time *)
}.

Definition with_forms (v : gmap Z Form) (w : World) : World :=
  World_mk v (hostnames w) (minted w) (first_submissions w) (outbox w)
    (submissions w) (unconfirming w) (trace w) (clock w).

Definition with_hostname (nonce : string) (v : option string * option string)
    (w : World) : World :=
  World_mk (forms w) (<[nonce := v]> (hostnames w)) (S (minted w))
    (first_submissions w) (outbox w) (submissions w) (unconfirming w) (trace w) (clock w).

Definition with_first_submission (pk : Z) (v : Data) (w : World) : World :=
  World_mk (forms w) (hostnames w) (minted w) (<[pk := v]> (first_submissions w))
    (outbox w) (submissions w) (unconfirming w) (trace w) (clock w).

Definition with_mail (m : Email) (w : World) : World :=
  World_mk (forms w) (hostnames w) (minted w) (first_submissions w)
    (outbox w ++ [m]) (submissions w) (unconfirming w) (trace w) (clock w).

Definition with_submission (pk : Z) (v : Data) (w : World) : World :=
  World_mk (forms w) (hostnames w) (minted w) (first_submissions w) (outbox w)
    (submissions w ++ [(pk, v)]) (unconfirming w) (trace w) (clock w).

Definition with_event (e : Event) (w : World) : World :=
  World_mk (forms w) (hostnames w) (minted w) (first_submissions w) (outbox w)
    (submissions w) (unconfirming w) (trace w ++ [e]) (clock w).

(** Responses. *)
Inductive Body :=
| Json (obj : list (string * string))                 (* jsonify / jsonerror *)
| Page (template title text : string)                 (* render_template(t, title=, text=) *)
| CaptchaPage (template : string) (data : Data) (sorted_keys : list string)
    (action : string) (lang : option string)
| ConfirmationSentPage (email host : string) (resend : bool)
| ThanksRedirect (location : string)                  (* redirect(next, code=302) *)
| Text (s : string)
| HttpError (name : string).                          (* Flask's own page for an HTTP exception *)

Record Response := Response_mk {
  status_code : Z;
  body : Body
}.

(** Modelled from the spec: [jsonerror] (utils.py is missing): the
    structured error object a JSON caller gets, with its status code. *)
Definition jsonerror (code : Z) (obj : list (string * string)) : Response :=
  Response_mk code (Json obj).

Definition jsonify (obj : list (string * string)) : Response :=
  Response_mk 200 (Json obj).

(** The status dicts of the Delivery Engine, as a tagged union. *)
Inductive Status :=
| STATUS_EMAIL_SENT (next : string)
| STATUS_NO_EMAIL (next : string)
| STATUS_EMAIL_EMPTY
| STATUS_CONFIRMATION_SENT
| STATUS_CONFIRMATION_DUPLICATED
| STATUS_OVERLIMIT
| STATUS_REPLYTO_ERROR (address : string) (referrer : option string)
| STATUS_UNKNOWN (dump : string).   (* any other code: json.dumps(status) *)

(** Python exceptions that escape a handler. *)
Inductive Exn :=
| AttributeError (msg : string).

Inductive Outcome :=
| Responded (r : Response)
| Raised (e : Exn).

(** ** Collaborators outside views.py

    The settings and the pure helpers the views import.  They are
    parameters of the development: the views are verified for every choice
    of them.  [urljoin] is [urllib.parse.urljoin] of Python's standard
    library, which resolves a URL reference against a base; nothing is
    assumed of the URL it returns, which need not lie under the base (a
    reference that begins with a scheme of its own is returned as it is). *)
Class Env := {
  (* the language *)
  str_methods :: Py.Unicode;
  (* formspree.settings *)
  TESTING : bool;
  SERVICE_URL : string;
  SERVICE_NAME : string;
  API_ROOT : string;
  CONTACT_EMAIL : string;
  UPGRADED_PLAN_NAME : string;
  DEFAULT_SENDER : string;
  MONTHLY_SUBMISSIONS_LIMIT : nat;
  (* formspree.utils *)
  IS_VALID_EMAIL : string → bool;
  url_domain : string → string;
  next_url : option string → Data → string;
  (* formspree.forms.helpers *)
  referrer_to_path : option string → string;
  HASH : string → string → string;
  KEYS_EXCLUDED_FROM_EMAIL : list string;
  http_form_to_dict : list (string * string) → Data * list string;
  verify_captcha : Data → Request → bool;
  new_nonce : nat → string;
  (* formspree.forms.models *)
  hashid_decode : string → option Z;
  confirmation_nonce : Form → nat → string;   (* the form and the time of minting *)
  unconfirm_digest : Form → string;
  (* flask, jinja2, urllib *)
  url_for : string → list (string * string) → string;
  template_exists : string → bool;
  urljoin : string → string → string
}.

Section Views.

Context `{Env}.

(** ** Database access *)

(** [DB.session.add(form); DB.session.commit()]: the row is written under
    the object's primary key; an object that has none yet is inserted under
    a key no row uses, which then becomes its id. *)
Definition DB_commit (form : Form) (w : World) : Form * World :=
  match form_id form with
  | Some pk => (form, with_forms (<[pk := form]> (forms w)) w)
  | None =>
      let pk := fresh (dom (forms w)) in
      let form' := set_id (Some pk) form in
      (form', with_forms (<[pk := form']> (forms w)) w)
  end.

(** [Form.query.get(pk)]. *)
Definition Form_query_get (pk : Z) (w : World) : option Form * World :=
  (forms w !! pk, with_event (Query_get pk) w).

(** [Form.query.filter_by(hash=h).first()].  SQL fixes no order for
    [first()]; the map's own order of keys is taken. *)
Definition Form_query_by_hash (h : string) (w : World) : option Form * World :=
  (snd <$> head (map_to_list (filter (λ kf, form_hash kf.2 = Some h) (forms w))),
   with_event (Query_hash h) w).

(** Modelled from the spec: [Form.get_with_hashid] (models.py is missing).
    The hash-id is an opaque reference that only the system can turn back
    into the numeric id. *)
Definition Form_get_with_hashid (hashid : string) (w : World) : option Form * World :=
  (pk ← hashid_decode hashid; forms w !! pk, with_event (Query_hashid hashid) w).

(** Modelled from the spec: the constructor [Form(email, host)] (models.py
    is missing): a new unconfirmed Form bound to (email, host), whose hash
    is a function of that pair. *)
Definition Form_new (email host : string) : Form :=
  {| form_id := None; form_hash := Some (HASH email host);
     form_email := email; form_host := Some host;
     form_sitewide := false; form_confirmed := false;
     form_confirm_sent := false; form_disabled := false;
     form_uses_ajax := None; form_captcha_disabled := false;
     form_features := []; form_counter := 0;
     form_allowance := MONTHLY_SUBMISSIONS_LIMIT;
     form_disable_email := false |}.

(** ** Helpers *)

(** Modelled from the spec: [remove_www] (helpers.py is missing): removes a
    leading "www.". *)
Definition remove_www (host : string) : string :=
  if Py.startswith host "www." then String.substring 4 (String.length host - 4) host
  else host.

(** Modelled from the spec: [assign_ajax] (helpers.py is missing): the
    caller's channel preference is recorded on the form the first time it
    is observed and is sticky thereafter. *)
Definition assign_ajax (form : Form) (sent_using_ajax : bool) (w : World)
    : Form * World :=
  match form_uses_ajax form with
  | None => DB_commit (set_uses_ajax (Some sent_using_ajax) form) w
  | Some _ => (form, w)
  end.

(** Result of reading a host nonce back. *)
Inductive TempHostname :=
| TempOk (host referrer : option string)
| TempKeyError
| TempValueError.

(** Modelled from the spec: [temp_store_hostname] (helpers.py is missing):
    mints a nonce bound to the pair it is given. *)
Definition temp_store_hostname (hostname referrer : option string) (w : World)
    : string * World :=
  let nonce := new_nonce (minted w) in
  (nonce, with_hostname nonce (hostname, referrer) w).

(** Modelled from the spec: [get_temp_hostname] (helpers.py is missing): a
    valid nonce gives back the pair bound to it; a nonce that is not (or no
    longer) in the store is a hard failure. *)
Definition get_temp_hostname (nonce : string) (w : World) : TempHostname :=
  match hostnames w !! nonce with
  | Some (host, referrer) => TempOk host referrer
  | None => TempValueError
  end.

(** Modelled from the spec: [send_email] (utils.py is missing): hands a
    message to the mail transport. *)
Definition send_email (m : Email) (w : World) : World := with_mail m w.

(** ** Confirmation and delivery (formspree/forms/models.py) *)

(** Modelled from the spec: [Form.send_confirmation] (models.py is
    missing), after the outcome table of section 4.4.  A form that already
    had a confirmation sent gets CONFIRMATION_DUPLICATED and no new email.
    Otherwise the confirmation email with the signed nonce is dispatched,
    [confirm_sent] is set, and the raw submitted payload is stored so that
    it can be replayed on confirmation. *)
Definition Form_send_confirmation (form : Form) (store_data : Data) (w : World)
    : Status * World :=
  if form_confirm_sent form then (STATUS_CONFIRMATION_DUPLICATED, w)
  else
    let link :=
      url_for "confirm_email" [("nonce", confirmation_nonce form (clock w))] in
    let w1 := send_email
                {| mail_to := form_email form;
                   mail_subject := "Confirm email for " +:+ SERVICE_NAME;
                   mail_sender := DEFAULT_SENDER;
                   mail_body := ConfirmationMail link |} w in
    let '(form', w2) := DB_commit (set_confirm_sent true form) w1 in
    let w3 := match form_id form' with
              | Some pk => with_first_submission pk store_data w2
              | None => w2
              end in
    (STATUS_CONFIRMATION_SENT, w3).

(** Modelled from the spec: the reply-address rule of section 4.4: an
    explicit reply-to field, else a generic email field. *)
Definition reply_to (data : Data) : option string :=
  match data !! "_replyto" with
  | Some a => Some a
  | None => data !! "email"
  end.

(** Modelled from the spec: [Form.send], the Delivery Engine (models.py is
    missing), after the outcome table of section 4.4: an empty payload is
    EMAIL_EMPTY, a supplied reply-to that is no valid address is
    REPLYTO_ERROR, a count past the plan allowance is OVERLIMIT (nothing
    is sent), and otherwise the submission is counted, archived when the
    plan retains an archive, and mailed unless the owner opted out. *)
Definition Form_send (form : Form) (data : Data) (keys : list string)
    (referrer : option string) (w : World) : Status * World :=
  if bool_decide (keys = []) then (STATUS_EMAIL_EMPTY, w)
  else
    let bad_reply_to :=
      match reply_to data with
      | Some address => if IS_VALID_EMAIL address then None else Some address
      | None => None
      end in
    match bad_reply_to with
    | Some address => (STATUS_REPLYTO_ERROR address referrer, w)
    | None =>
        if (form_allowance form <? S (form_counter form))%nat
        then (STATUS_OVERLIMIT, w)
        else
          let '(form', w1) :=
            DB_commit (set_counter (S (form_counter form)) form) w in
          let next := next_url referrer data in
          let w2 := match form_id form' with
                    | Some pk =>
                        if has_feature form' "archive"
                        then with_submission pk data w1 else w1
                    | None => w1
                    end in
          if has_feature form' "archive" && form_disable_email form'
          then (STATUS_NO_EMAIL next, w2)
          else
            (STATUS_EMAIL_SENT next,
             send_email
               {| mail_to := form_email form';
                  mail_subject := "New submission from " +:+ referrer_to_path referrer;
                  mail_sender := DEFAULT_SENDER;
                  mail_body := SubmissionMail data keys |} w2)
    end.

(** ** The [send] view (views.py, lines 37-287) *)

(** Line 59: [request.get_json()] is called when no form field was sent,
    and raises BadRequest on a body that is declared as JSON and cannot be
    parsed. *)
Definition send_unreadable (request : Request) : bool :=
  match req_form request, req_json request with
  | [], Json_malformed => true
  | _, _ => false
  end.

(** What Flask answers when a view raises BadRequest. *)
Definition bad_request : Response := Response_mk 400 (HttpError "Bad Request").

(** Lines 56-62: the received payload and the keys that go into the mail.
    For a body that cannot be read there is none: [send_origin] answers
    before either is looked at. *)
Definition send_received (request : Request) : Data * list string :=
  let '(received_data, sorted_keys) :=
    match req_form request with
    | _ :: _ => http_form_to_dict (req_form request)
    | [] =>
        match req_json request with
        | Json_object data keys => (data, keys)
        | No_json => (∅, [])                              (* None or {} *)
        | Json_malformed => (∅, [])
        end
    end in
  (received_data, filter (λ k, k ∉ KEYS_EXCLUDED_FROM_EMAIL) sorted_keys).

(** Lines 81-92: the answer when no host can be told. *)
Definition no_host (request : Request) : Response :=
  if req_wants_json request
  then jsonerror 400 [("error", "Invalid " +:+ Py.dq +:+ "Referrer" +:+ Py.dq +:+ " header")]
  else Response_mk 400
         (Page "error.html" "Unable to submit form"
            ("<p>Make sure you open this page through a web server, Formspree will not work in pages browsed as HTML files. Also make sure that you're posting to <b>" +:+ SERVICE_URL +:+ req_path request +:+ "</b>.</p><p>For geeks: could not find the " +:+ Py.dq +:+ "Referrer" +:+ Py.dq +:+ " header.</p>")).

(** Lines 56-92: the Origin Resolver, after the body was read.  A body
    that cannot be read ends the request at line 59, before anything else
    is looked at.  On success the host is a non-empty string. *)
Definition send_origin (request : Request) (received_data : Data) (w : World)
    : Response + (string * option string) :=
  if send_unreadable request then inl bad_request else
  let from_header :=
    (Some (referrer_to_path (req_referrer request)), req_referrer request) in
  let resolved :=
    match received_data !! "_host_nonce" with
    | None => inr from_header                           (* KeyError *)
    | Some nonce =>
        match get_temp_hostname nonce w with
        | TempOk host referrer => inr (host, referrer)
        | TempKeyError => inr from_header
        | TempValueError =>
            inl (Response_mk 500
                   (Page "error.html" "Unable to submit form"
                      ("<p>We had a problem identifying to whom we should have submitted this form. Please try submitting again. If it fails once more, please let us know at " +:+ CONTACT_EMAIL +:+ "</p>")))
        end
    end in
  match resolved with
  | inl r => inl r
  | inr (Some (String _ _ as host), referrer) => inr (host, referrer)
  | inr _ => inl (no_host request)                      (* not host *)
  end.

(** Lines 108-113 and 184-189: the answer of a disabled form. *)
Definition form_not_active (request : Request) : Response :=
  if req_wants_json request
  then jsonerror 403 [("error", "Form not active")]
  else Response_mk 403
         (Page "error.html" "Form not active"
            "The owner of this form has disabled this form and it is no longer accepting submissions. Your submissions was not accepted").

(** Lines 125-131: the condition under which the Trust Guard turns a
    submission away, for a form whose host is set. *)
Definition different_host (sitewide : bool) (form_host host : string) : bool :=
  (negb sitewide &&
   negb (String.eqb (Py.rstrip "/" form_host) (Py.rstrip "/" host)))
  || (sitewide &&
      negb (Py.startswith (remove_www host) (remove_www form_host))).

(** Lines 133-142: the answer to a submission from a different host. *)
Definition host_rejection (request : Request) (host form_host : string) : Response :=
  if req_wants_json request
  then jsonerror 403 [("error", "Submission from different host than confirmed");
                      ("submitted", host); ("confirmed", form_host)]
  else Response_mk 403
         (Page "error.html" "Check form address"
            ("This submission came from " +:+ Py.dq +:+ host +:+ Py.dq +:+ " but the form was                                                 confirmed for address " +:+ Py.dq +:+ form_host +:+ Py.dq)).

(** Lines 96-189: the Form Identity Resolver with the Trust Guard and the
    disabled check.  Either an early response, or the form and the email
    the remaining stages work with. *)
Definition send_form (email_or_string : string) (request : Request)
    (host : string) (w : World) : (Response + (Form * string)) * World :=
  if negb (IS_VALID_EMAIL email_or_string) then
    let hashid := email_or_string in
    let '(form, w) := Form_get_with_hashid hashid w in
    match form with
    | Some form =>
        let '(form, w) := assign_ajax form (req_wants_json request) w in
        if form_disabled form then (inl (form_not_active request), w)
        else
          let email := form_email form in
          match form_host form with
          | Some (String _ _ as fhost) =>
              if different_host (form_sitewide form) fhost host
              then (inl (host_rejection request host fhost), w)
              else (inr (form, email), w)
          | _ =>
              let '(form, w) := DB_commit (set_host (Some host) form) w in
              (inr (form, email), w)
          end
    | None =>
        if req_wants_json request
        then (inl (jsonerror 400 [("error", "Invalid email address")]), w)
        else (inl (Response_mk 400
                     (Page "error.html" "Check email address"
                        ("Email address " +:+ email_or_string +:+ " is not formatted correctly"))), w)
    end
  else
    let email := Py.lower email_or_string in
    let '(form, w) := Form_query_by_hash (HASH email host) w in
    let found_or_new :=
      match form with
      | Some form => inr form
      | None =>
          if req_wants_json request
          then inl (jsonerror 400
                      [("error", "To prevent spam, only " +:+ UPGRADED_PLAN_NAME +:+ " accounts may create AJAX forms.")])
          else if Py.contains host (url_domain SERVICE_URL)
          then inl (Response_mk 400 (Page "error.html" "Unable to submit form" "Sorry"))
          else inr (Form_new email host)
      end in
    match found_or_new with
    | inl r => (inl r, w)
    | inr form =>
        let '(form, w) := assign_ajax form (req_wants_json request) w in
        if form_disabled form then (inl (form_not_active request), w)
        else (inr (form, email), w)
    end.

(** Lines 195-201: whether a confirmed form asks for a captcha. *)
Definition needs_captcha (request : Request) (form : Form) (captcha_verified : bool)
    : bool :=
  let needs_captcha := negb (req_wants_json request || captcha_verified || TESTING) in
  if has_feature form "dashboard"
  then needs_captcha && negb (form_captcha_disabled form)
  else needs_captcha.

(** Lines 193-230: the captcha challenge, or the call into the Delivery
    Engine or the confirmation. *)
Definition send_dispatch (email_or_string : string) (request : Request)
    (received_data : Data) (sorted_keys : list string) (referrer : option string)
    (form : Form) (w : World) : (Response + Status) * World :=
  if form_confirmed form then
    let captcha_verified := verify_captcha received_data request in
    let w := with_event Captcha_check w in
    if needs_captcha request form captcha_verified then
      let data_copy := received_data in
      let '(nonce, w) :=
        temp_store_hostname (form_host form) (req_referrer request) w in
      let data_copy := <["_host_nonce" := nonce]> data_copy in
      let action := urljoin API_ROOT email_or_string in
      let english :=
        Response_mk 200
          (CaptchaPage "forms/captcha.html" data_copy sorted_keys action None) in
      match received_data !! "_language" with
      | Some lang =>
          let template := "forms/captcha_lang/" +:+ lang +:+ ".html" in
          if template_exists template
          then (inl (Response_mk 200
                       (CaptchaPage template data_copy sorted_keys action (Some lang))), w)
          else (inl english, w)                        (* TemplateNotFound *)
      | None => (inl english, w)
      end
    else
      let '(status, w) := Form_send form received_data sorted_keys referrer w in
      (inr status, w)
  else
    let '(status, w) := Form_send_confirmation form received_data w in
    (inr status, w).

(** Lines 233-287: the caller-facing answer to a status. *)
Definition send_respond (request : Request) (email host : string)
    (referrer : option string) (status : Status) : Response :=
  match status with
  | STATUS_EMAIL_SENT next =>
      if req_wants_json request
      then jsonify [("success", "email sent"); ("next", next)]
      else Response_mk 302 (ThanksRedirect next)
  | STATUS_NO_EMAIL next =>
      if req_wants_json request
      then jsonify [("success", "no email sent, access submission archive on " +:+ SERVICE_NAME +:+ " dashboard");
                    ("next", next)]
      else Response_mk 302 (ThanksRedirect next)
  | STATUS_EMAIL_EMPTY =>
      if req_wants_json request
      then jsonerror 400 [("error", "Can't send an empty form")]
      else Response_mk 400
             (Page "error.html" "Can't send an empty form"
                ("<p>Make sure you have placed the <a href=" +:+ Py.dq +:+ "http://www.w3schools.com/tags/att_input_name.asp" +:+ Py.dq +:+ " target=" +:+ Py.dq +:+ "_blank" +:+ Py.dq +:+ "><code>" +:+ Py.dq +:+ "name" +:+ Py.dq +:+ "</code> attribute</a> in all your form elements. Also, to prevent empty form submissions, take a look at the <a href=" +:+ Py.dq +:+ "http://www.w3schools.com/tags/att_input_required.asp" +:+ Py.dq +:+ " target=" +:+ Py.dq +:+ "_blank" +:+ Py.dq +:+ "><code>" +:+ Py.dq +:+ "required" +:+ Py.dq +:+ "</code> property</a>.</p><p>This error also happens when you have an <code>" +:+ Py.dq +:+ "enctype" +:+ Py.dq +:+ "</code> attribute set in your <code>&lt;form&gt;</code>, so make sure you don't.</p><p><a href=" +:+ Py.dq +:+ Py.str referrer +:+ Py.dq +:+ ">Return to form</a></p>"))
  | STATUS_CONFIRMATION_SENT =>
      if req_wants_json request
      then jsonify [("success", "confirmation email sent")]
      else Response_mk 200 (ConfirmationSentPage email host false)
  | STATUS_CONFIRMATION_DUPLICATED =>
      if req_wants_json request
      then jsonify [("success", "confirmation email sent")]
      else Response_mk 200 (ConfirmationSentPage email host true)
  | STATUS_OVERLIMIT =>
      if req_wants_json request
      then jsonify [("error", "form over quota")]
      else Response_mk 402
             (Page "error.html" "Form over quota"
                "It looks like this form is getting a lot of submissions and ran out of its quota. Try contacting this website through other means or try submitting again later.")
  | STATUS_REPLYTO_ERROR address back =>
      if req_wants_json request
      then jsonerror 500 [("error", "_replyto or email field has not been sent correctly")]
      else Response_mk 400
             (Page "error.html" "Invalid email address"
                ("You entered <span class=" +:+ Py.dq +:+ "code" +:+ Py.dq +:+ ">" +:+ address +:+ "</span>. That is an invalid email address. Please correct the form and try to submit again <a href=" +:+ Py.dq +:+ Py.str back +:+ Py.dq +:+ ">here</a>.<p style=" +:+ Py.dq +:+ "font-size: small" +:+ Py.dq +:+ ">This could also be a problem with the form. For example, there could be two fields with <span class=" +:+ Py.dq +:+ "code" +:+ Py.dq +:+ ">_replyto</span> or <span class=" +:+ Py.dq +:+ "code" +:+ Py.dq +:+ ">email</span> name attribute. If you suspect the form is broken, please contact the form owner and ask them to investigate</p>"))
  | STATUS_UNKNOWN message =>
      (* error fallback -- shouldn't happen *)
      if req_wants_json request
      then jsonerror 500 [("error", "Unable to send email")]
      else Response_mk 500
             (Page "error.html" "Unable to send email"
                ("Unable to send email. If you can, please send the link to your form and the error information to  <b>" +:+ CONTACT_EMAIL +:+ "</b>. And send them the following: <p><pre><code>" +:+ message +:+ "</code></pre></p>"))
  end.

(** Lines 37-287: the main endpoint. *)
Definition send (email_or_string : string) (request : Request) (w : World)
    : Response * World :=
  if String.eqb (req_method request) "GET" then
    if req_wants_json request
    then (jsonerror 405 [("error", "Please submit POST request.")], w)
    else (Response_mk 405
            (Page "info.html" "Form should POST"
               ("Make sure your form has the <span class=" +:+ Py.dq +:+ "code" +:+ Py.dq +:+ "><strong>method=" +:+ Py.dq +:+ "POST" +:+ Py.dq +:+ "</strong></span> attribute")), w)
  else
    let '(received_data, sorted_keys) := send_received request in
    match send_origin request received_data w with
    | inl r => (r, w)
    | inr (host, referrer) =>
        match send_form email_or_string request host w with
        | (inl r, w) => (r, w)
        | (inr (form, email), w) =>
            match send_dispatch email_or_string request received_data
                    sorted_keys referrer form w with
            | (inl r, w) => (r, w)
            | (inr status, w) =>
                (send_respond request email host referrer status, w)
            end
        end
    end.

(** ** The unconfirm views (views.py, lines 384-469) *)

(** Lines 384-419: mails the link that leads to the unconfirm page. *)
Definition request_unconfirm_form (form_pk : Z) (request : Request) (w : World)
    : Outcome * World :=
  (* repel bots *)
  if negb (Py.truthy (req_browser request))
  then (Responded (Response_mk 200 (Text EmptyString)), w)
  else
    let '(form, w) := Form_query_get form_pk w in
    match form with
    | None => (Raised (AttributeError "id"), w)
    | Some form =>
        let unconfirm_url :=
          url_for "unconfirm_form"
            [("form_id", Py.str (pretty <$> form_id form));
             ("digest", unconfirm_digest form)] in
        let w := send_email
                   {| mail_to := form_email form;
                      mail_subject := "Unsubscribe from form at " +:+ Py.str (form_host form);
                      mail_sender := DEFAULT_SENDER;
                      mail_body := UnsubscribeMail unconfirm_url (form_email form)
                                     (form_host form) |} w in
        (Responded
           (Response_mk 200
              (Page "info.html" "Link sent to your address"
                 ("We've sent an email to " +:+ form_email form +:+ " with a link to finish unsubscribing."))), w)
    end.

(** Lines 460-464: the loop over the supplied ids.  The rows are read and
    changed in the database session; nothing reaches the table before the
    commit that follows the loop. *)
Fixpoint unconfirm_loop (unconfirming_for_email : string) (form_ids : list Z)
    (session : gmap Z Form) (w : World) : (Exn + gmap Z Form) * World :=
  match form_ids with
  | [] => (inr session, w)
  | form_pk :: rest =>
      let w := with_event (Query_get form_pk) w in
      match session !! form_pk with
      | None => (inl (AttributeError "email"), w)
      | Some form =>
          if String.eqb (form_email form) unconfirming_for_email
          then unconfirm_loop unconfirming_for_email rest
                 (<[form_pk := set_confirmed false form]> session) w
          else unconfirm_loop unconfirming_for_email rest session w
      end
  end.

(** Lines 453-469: the bulk opt-out. *)
Definition unconfirm_multiple (request : Request) (w : World) : Outcome * World :=
  match unconfirming w with
  | Some (String _ _ as unconfirming_for_email) =>
      match unconfirm_loop unconfirming_for_email (req_form_ids request)
              (forms w) w with
      | (inl e, w) => (Raised e, w)
      | (inr session, w) =>
          (Responded
             (Response_mk 200
                (Page "info.html" "Success"
                   "The selected forms were unconfirmed successfully.")),
           with_forms session w)                       (* DB.session.commit() *)
      end
  | _ =>
      (Responded
         (Response_mk 401
            (Page "error.html" "Forbidden"
               "You're not allowed to unconfirm these forms.")), w)
  end.

End Views.

(** ** Sample collaborators

    One concrete choice of the settings and helpers, used to run the views
    on concrete requests. *)

Module Sample.

(** The text after the first "://", if there is one. *)
Fixpoint after_scheme (s : string) : option string :=
  match s with
  | EmptyString => None
  | String _ s' =>
      if String.prefix "://" s
      then Some (String.substring 3 (String.length s - 3) s)
      else after_scheme s'
  end.

(** The text before the first '/', '?' or '#'. *)
Fixpoint before_path (s : string) : string :=
  match s with
  | EmptyString => EmptyString
  | String a s' =>
      if Ascii.eqb a "/" || Ascii.eqb a "?" || Ascii.eqb a "#"
      then EmptyString
      else String a (before_path s')
  end.

(** Modelled from the spec: [referrer_to_path] (helpers.py is missing): the
    host is the referrer header with path and query stripped; no header
    gives no host. *)
Definition host_of_referrer (r : option string) : string :=
  match r with
  | None => EmptyString
  | Some s => before_path (default s (after_scheme s))
  end.

(** The text after the first '@', if there is one. *)
Fixpoint after_at (s : string) : option string :=
  match s with
  | EmptyString => None
  | String a s' => if Ascii.eqb a "@" then Some s' else after_at s'
  end.

(** Modelled from the spec: [IS_VALID_EMAIL] (utils.py is missing): a
    syntactic check, here a non-empty local part, one '@' and a domain with
    a dot in it. *)
Definition valid_email (s : string) : bool :=
  match after_at s with
  | Some domain =>
      negb (String.prefix "@" s) && Py.contains domain "."
      && negb (Py.contains domain "@")
  | None => false
  end.

(** Two hash-ids and the primary keys they stand for. *)
Definition decode_hashid (s : string) : option Z :=
  if String.eqb s "xkdeqaj" then Some 1
  else if String.eqb s "bnwpzml" then Some 2
  else None.

(** On the ASCII text of the examples [lower] is [Py.lower_bytes]. *)
#[export] Instance unicode : Py.Unicode := {|
  Py.lower := Py.lower_bytes;
  Py.lower_ascii_text := λ s _, eq_refl
|}.

(** Whether a URL reference begins with a scheme: a letter, then letters,
    digits, '+', '-' or '.', then a colon. *)
Definition scheme_char (a : ascii) : bool :=
  let n := nat_of_ascii a in
  ((65 <=? n) && (n <=? 90) || (97 <=? n) && (n <=? 122)
   || (48 <=? n) && (n <=? 57)
   || (n =? 43) || (n =? 45) || (n =? 46))%nat.

Fixpoint scheme_rest (s : string) : bool :=
  match s with
  | EmptyString => false
  | String a s' => Ascii.eqb a ":" || (scheme_char a && scheme_rest s')
  end.

Definition has_scheme (s : string) : bool :=
  match s with
  | EmptyString => false
  | String a s' =>
      let n := nat_of_ascii a in
      ((65 <=? n) && (n <=? 90) || (97 <=? n) && (n <=? 122))%nat
      && scheme_rest s'
  end.

(** [urljoin] for the base "https://formspree.io/" and a reference that is
    one path segment, as the targets of the examples are: a reference with
    a scheme of its own is returned as it is, any other is appended. *)
Definition join (base url : string) : string :=
  if has_scheme url then url else base +:+ url.

#[export] Instance env : Env := {|
  str_methods := unicode;
  TESTING := false;
  SERVICE_URL := "https://formspree.io";
  SERVICE_NAME := "Formspree";
  API_ROOT := "https://formspree.io/";
  CONTACT_EMAIL := "team@formspree.io";
  UPGRADED_PLAN_NAME := "Gold";
  DEFAULT_SENDER := "Formspree <submissions@formspree.io>";
  MONTHLY_SUBMISSIONS_LIMIT := 1000;
  IS_VALID_EMAIL := valid_email;
  url_domain := λ url, host_of_referrer (Some url);
  next_url := λ referrer data, default "/thanks" (data !! "_next");
  referrer_to_path := host_of_referrer;
  HASH := λ email host, email +:+ "|" +:+ host;
  KEYS_EXCLUDED_FROM_EMAIL :=
    ["_language"; "g-recaptcha-response"; "_host_nonce"; "_replyto"];
  http_form_to_dict := λ fields, (list_to_map fields, remove_dups fields.*1);
  verify_captcha := λ data _, bool_decide (data !! "g-recaptcha-response" = Some "passed");
  new_nonce := λ n, "nonce-" +:+ pretty n;
  hashid_decode := decode_hashid;
  confirmation_nonce := λ form t,
    "confirm-" +:+ Py.str (form_hash form) +:+ "-" +:+ pretty t;
  unconfirm_digest := λ form, "digest-" +:+ Py.str (pretty <$> form_id form);
  url_for := λ endpoint args, "/" +:+ endpoint +:+ "/" +:+ String.concat "/" args.*2;
  template_exists := λ t, bool_decide (t = "forms/captcha_lang/es.html");
  urljoin := join
|}.

(** A form submitted from a page, as a browser sends it. *)
Definition post (referrer : string) (fields : list (string * string)) : Request :=
  {| req_method := "POST"; req_form := fields; req_json := No_json;
     req_referrer := Some referrer; req_wants_json := false;
     req_path := "/"; req_browser := Some "firefox"; req_form_ids := [] |}.

(** The same submission from a script that asks for JSON. *)
Definition post_json (referrer : string) (fields : list (string * string)) : Request :=
  {| req_method := "POST"; req_form := fields; req_json := No_json;
     req_referrer := Some referrer; req_wants_json := true;
     req_path := "/"; req_browser := None; req_form_ids := [] |}.

(** A world with the given Form table and nothing else. *)
Definition world (table : gmap Z Form) : World :=
  {| forms := table; hostnames := ∅; minted := 0; first_submissions := ∅;
     outbox := []; submissions := []; unconfirming := None; trace := []; clock := 0 |}.

(** A confirmed form made from the dashboard, under hash-id xkdeqaj. *)
Definition dashboard_form (host : string) (sitewide : bool) : Form :=
  {| form_id := Some 1; form_hash := None; form_email := "owner@example.com";
     form_host := Some host; form_sitewide := sitewide; form_confirmed := true;
     form_confirm_sent := false; form_disabled := false;
     form_uses_ajax := Some false; form_captcha_disabled := false;
     form_features := ["dashboard"; "archive"]; form_counter := 0;
     form_allowance := 1000; form_disable_email := false |}.

(** A request to the bulk opt-out with the given form ids. *)
Definition bulk_request (ids : list Z) : Request :=
  {| req_method := "POST"; req_form := []; req_json := No_json;
     req_referrer := None; req_wants_json := false;
     req_path := "/unconfirm-multiple"; req_browser := Some "firefox";
     req_form_ids := ids |}.

(** A confirmed form of the given owner, made by a plain submission. *)
Definition plain_form (pk : Z) (email host : string) : Form :=
  {| form_id := Some pk; form_hash := Some (email +:+ "|" +:+ host);
     form_email := email; form_host := Some host; form_sitewide := false;
     form_confirmed := true; form_confirm_sent := false;
     form_disabled := false; form_uses_ajax := Some false;
     form_captcha_disabled := false; form_features := [];
     form_counter := 0; form_allowance := 1000;
     form_disable_email := false |}.

(** Two forms of one owner and one of somebody else; the session carries
    the marker of the first owner. *)
Definition bulk_world : World :=
  {| forms := <[1 := plain_form 1 "owner@example.com" "example.com"]>
                (<[2 := plain_form 2 "owner@example.com" "example.org"]>
                   (<[3 := plain_form 3 "other@example.net" "example.net"]> ∅));
     hostnames := ∅; minted := 0; first_submissions := ∅; outbox := [];
     submissions := []; unconfirming := Some "owner@example.com";
     trace := []; clock := 0 |}.

(** The payload of the specification's example. *)
Definition jo : list (string * string) := [("name", "Jo")].

(** A sitewide form confirmed for example.com. *)
Definition sitewide_world : World :=
  world (<[1 := dashboard_form "example.com" true]> ∅).

(** A form for one page of example.com, near or past its allowance. *)
Definition counted_world (counter : nat) : World :=
  world (<[1 := set_counter counter (dashboard_form "example.com" false)]> ∅).

(** A form its owner has disabled. *)
Definition disabled_form : Form :=
  {| form_id := Some 1; form_hash := None; form_email := "owner@example.com";
     form_host := Some "example.com"; form_sitewide := false;
     form_confirmed := true; form_confirm_sent := false; form_disabled := true;
     form_uses_ajax := Some false; form_captcha_disabled := false;
     form_features := ["dashboard"]; form_counter := 0;
     form_allowance := 1000; form_disable_email := false |}.

Definition disabled_world : World := world (<[1 := disabled_form]> ∅).

(** The row a first submission to owner@example.com from example.com
    leaves behind before the confirmation is sent. *)
Definition new_form : Form :=
  {| form_id := Some 0; form_hash := Some "owner@example.com|example.com";
     form_email := "owner@example.com"; form_host := Some "example.com";
     form_sitewide := false; form_confirmed := false;
     form_confirm_sent := false; form_disabled := false;
     form_uses_ajax := Some false; form_captcha_disabled := false;
     form_features := []; form_counter := 0; form_allowance := 1000;
     form_disable_email := false |}.

End Sample.

(** ** Vocabulary of the properties *)

(** What a handler can change besides the trace of its reads. *)
Definition stores (w : World) :=
  (forms w, hostnames w, first_submissions w, outbox w, submissions w,
   unconfirming w).

Definition is_captcha_check (e : Event) : bool :=
  match e with
  | Captcha_check => true
  | _ => false
  end.

(** How often the captcha verdict has been asked for. *)
Definition captcha_checks (w : World) : nat :=
  length (filter (λ e, is_captcha_check e) (trace w)).

(** Every row is stored under its own id. *)
Definition db_consistent (table : gmap Z Form) : Prop :=
  map_Forall (λ pk form, form_id form = Some pk) table.

(** No two rows share a hash. *)
Definition hash_unique (table : gmap Z Form) : Prop :=
  map_Forall (λ pk1 form1,
    map_Forall (λ pk2 form2,
      is_Some (form_hash form1) → form_hash form1 = form_hash form2 → pk1 = pk2)
      table) table.

(** The Trust Rule in the words of the specification: a non-sitewide form
    wants the stored and the current host equal once trailing slashes are
    stripped; a sitewide form wants the current host, a leading "www."
    removed from both, to begin with the stored host. *)
Definition trust_rule (sitewide : bool) (stored_host current_host : string) : Prop :=
  if sitewide
  then Py.startswith (remove_www current_host) (remove_www stored_host) = true
  else Py.rstrip "/" stored_host = Py.rstrip "/" current_host.

(** A rejection names both hosts: as fields of the JSON object, or inside
    the text of the page. *)
Definition discloses (r : Response) (submitted confirmed : string) : Prop :=
  match body r with
  | Json obj => ("submitted", submitted) ∈ obj ∧ ("confirmed", confirmed) ∈ obj
  | Page _ _ text => ∃ a b c, text = a +:+ submitted +:+ b +:+ confirmed +:+ c
  | _ => False
  end.


(** Between two worlds nothing was mailed, archived, stored for a
    confirmation or minted, and no captcha verdict was asked for: only Form
    rows and the record of lookups may differ. *)
Definition quiet (w w' : World) : Prop :=
  outbox w' = outbox w ∧ submissions w' = submissions w ∧
  first_submissions w' = first_submissions w ∧ hostnames w' = hostnames w ∧
  captcha_checks w' = captcha_checks w.

(** The form a target token stands for: looked up by the hash of (email,
    host) when the token is an email address, by hash-id otherwise. *)
Definition resolves_to `{Env} (email_or_string host : string) (w : World)
    (form : Form) : Prop :=
  if IS_VALID_EMAIL email_or_string
  then (Form_query_by_hash (HASH (Py.lower email_or_string) host) w).1 = Some form
  else (Form_get_with_hashid email_or_string w).1 = Some form.

(** A POST whose origin resolves to (host, referrer). *)
Definition resolves_origin `{Env} (request : Request) (w : World)
    (host : string) (referrer : option string) : Prop :=
  req_method request ≠ "GET" ∧
  send_origin request (send_received request).1 w = inr (host, referrer).

(** A submission that gets past identity, trust and the disabled check, and
    reaches the admission stage with [form]. *)
Definition reaches_admission `{Env} (email_or_string : string) (request : Request)
    (w : World) (host : string) (referrer : option string) (form : Form)
    (email : string) (w1 : World) : Prop :=
  resolves_origin request w host referrer ∧
  send_form email_or_string request host w = (inr (form, email), w1).

(** ** The other views of views.py

    [resend_confirmation], [unblock_email], [unconfirm_form] and
    [export_submissions].  Their answers need more shapes than those of
    [send], and two of them call the mail provider over HTTP. *)

(** What ends a view other than a response. *)
Inductive Failure :=
| NoneAttribute (attr : string)     (* AttributeError: None has no such attribute *)
| BadRequestKey (key : string)      (* request.form[key] without the key *)
| KeyMissing (key : string)         (* KeyError on a dict *)
| CsvExtraField                     (* ValueError of csv.DictWriter *)
| ReturnedNone.                     (* the view ran off its end *)

Inductive Reply :=
| Reply_response (r : Response)
| Reply_unblock_page (email : string)            (* forms/unblock_email.html, 200 *)
| Reply_unconfirm_page (other_forms : list Form) (disabled_form : Form)
                                                 (* forms/unconfirm.html, 200 *)
| Reply_abort (code : Z)                         (* abort(code) *)
| Reply_login_required                           (* login_required turned the caller away *)
| Reply_json_file (filename : string) (host : option string) (email : string)
    (fields : list string) (submissions : list Data)
| Reply_csv_file (filename : string) (header : list string)
    (rows : list (list string))
| Reply_failed (f : Failure).

(** The answers of the mail provider's bounce API, as the views read them:
    [r.ok] and [r.json()]. *)
Class Sendgrid := {
  bounces_get : string → bool * list Data;
  bounces_delete : string → bool * Data
}.

(** The calls made to the bounce API. *)
Inductive ApiCall :=
| Bounces_get (email : string)
| Bounces_delete (email : string).

(** The logged-in account, and the model methods the export uses. *)
Record User := User_mk {
  user_id : Z;
  user_features : list string
}.

Class Accounts := {
  controlled_by : Form → User → bool;
  submissions_with_fields : Form → World → list Data * list string;
  now_isoformat : string
}.

Definition with_unconfirming (v : option string) (w : World) : World :=
  World_mk (forms w) (hostnames w) (minted w) (first_submissions w) (outbox w)
    (submissions w) v (trace w) (clock w).

Section OtherViews.

Context `{Env}.

(** [request.form.get(key)]: the first value submitted under the key. *)
Definition form_get (key : string) (request : Request) : option string :=
  (list_to_map (req_form request) : Data) !! key.

(** Modelled from the spec: [Form.send_confirmation()] called without a
    payload, as the resend does (models.py is missing): as in the outcome
    table of section 4.4, but there is no payload to store. *)
Definition Form_send_confirmation_bare (form : Form) (w : World) : Status * World :=
  if form_confirm_sent form then (STATUS_CONFIRMATION_DUPLICATED, w)
  else
    let link :=
      url_for "confirm_email" [("nonce", confirmation_nonce form (clock w))] in
    let w1 := send_email
                {| mail_to := form_email form;
                   mail_subject := "Confirm email for " +:+ SERVICE_NAME;
                   mail_sender := DEFAULT_SENDER;
                   mail_body := ConfirmationMail link |} w in
    let '(form', w2) := DB_commit (set_confirm_sent true form) w1 in
    (STATUS_CONFIRMATION_SENT, w2).

(** Modelled from the spec: [Form.unconfirm_with_digest] (models.py is
    missing): the digest is checked against the one derived from the form;
    a match switches [confirmed] off and persists it. *)
Definition Form_unconfirm_with_digest (form : Form) (digest : string) (w : World)
    : bool * Form * World :=
  if String.eqb digest (unconfirm_digest form)
  then let '(form', w') := DB_commit (set_confirmed false form) w in (true, form', w')
  else (false, form, w).

(** Lines 340-344: the answer at the end of [resend_confirmation]. *)
Definition resend_failed : Response :=
  Response_mk 500
    (Page "error.html" "Unable to send email"
       "Please make sure you pass the <i>reCaptcha</i> test before submitting.").

(** Lines 303: whether the bounce API lists the address, and why. *)
Definition bounce_reason `{Sendgrid} (email : string) : option string :=
  match bounces_get email with
  | (true, first :: _) => first !! "reason"
  | _ => None
  end.

(** Lines 290-344: sending the confirmation mail again. *)
Definition resend_confirmation `{Sendgrid} (email : string) (request : Request)
    (w : World) (calls : list ApiCall) : Reply * World * list ApiCall :=
  let w := with_event Captcha_check w in
  if verify_captcha (list_to_map (req_form request)) request then
    (* check if this email is listed on SendGrid's bounces *)
    let calls := (calls ++ [Bounces_get email])%list in
    match bounce_reason email with
    | Some reason =>
        (* tell the user to verify his mailbox *)
        if req_wants_json request
        then (Reply_response
                (jsonify [("error", "Verify your mailbox, we can't reach it.");
                          ("reason", reason)]), w, calls)
        else (Reply_response
                (Response_mk 200
                   (Page "info.html" "Verify the availability of your mailbox"
                      ("We encountered an error when trying to deliver the confirmation message to <b>" +:+ email +:+ "</b> at the first time we tried. For spam reasons, we will not try again until we are sure the problem is fixed. Here's the reason:</p><p><center><i>" +:+ reason +:+ "</i></center></p><p>Please make sure this problem is not happening still, then go to <a href='/unblock/" +:+ email +:+ "'>this page</a> to unblock your address.</p><p>After you have unblocked the address, please try to resend the confirmation again.</p>"))),
              w, calls)
    | None =>
        (* if there's no bounce, we proceed to resend the confirmation. *)
        match form_get "host" request with
        | None => (Reply_failed (BadRequestKey "host"), w, calls)
        | Some host =>
            let '(form, w) := Form_query_by_hash (HASH email host) w in
            match form with
            | None =>
                if req_wants_json request
                then (Reply_response
                        (jsonerror 400 [("error", "This form does not exist.")]),
                      w, calls)
                else (Reply_response
                        (Response_mk 400
                           (Page "error.html" "Check email address"
                              "This form does not exist.")), w, calls)
            | Some form =>
                let form := set_confirm_sent false form in
                let '(status, w) := Form_send_confirmation_bare form w in
                match status with
                | STATUS_CONFIRMATION_SENT =>
                    if req_wants_json request
                    then (Reply_response
                            (jsonify [("success", "confirmation email sent")]),
                          w, calls)
                    else (Reply_response
                            (Response_mk 200
                               (ConfirmationSentPage email host false)), w, calls)
                | _ => (Reply_response resend_failed, w, calls)
                end
            end
        end
    end
  else
    (* fallback response -- should happen only when the recaptcha is failed. *)
    (Reply_response resend_failed, w, calls).

(** Lines 347-381: taking an address off the bounce list. *)
Definition unblock_email `{Sendgrid} (email : string) (request : Request)
    (w : World) (calls : list ApiCall) : Reply * World * list ApiCall :=
  if String.eqb (req_method request) "POST" then
    let w := with_event Captcha_check w in
    if verify_captcha (list_to_map (req_form request)) request then
      (* clear the bounce from SendGrid *)
      let calls := (calls ++ [Bounces_delete email])%list in
      let failed :=
        Reply_response
          (Response_mk 200
             (Page "error.html" "Failed to unblock address."
                (email +:+ " is not a valid address or wasn't blocked on our side."))) in
      match bounces_delete email with
      | (true, json) =>
          match json !! "message" with
          | None => (Reply_failed (KeyMissing "message"), w, calls)
          | Some message =>
              if String.eqb message "success"
              then (Reply_response
                      (Response_mk 200
                         (Page "info.html" "Successfully unblocked email address!"
                            "You should be able to receive emails from Formspree again.")),
                    w, calls)
              else (failed, w, calls)
          end
      | (false, _) => (failed, w, calls)
      end
    else
      (* fallback response -- should happen only when the recaptcha is failed. *)
      (Reply_response
         (Response_mk 500
            (Page "error.html" "Unable to unblock email"
               "Please make sure you pass the <i>reCaptcha</i> test before submitting.")),
       w, calls)
  else if String.eqb (req_method request) "GET" then
    (Reply_unblock_page email, w, calls)
  else (Reply_failed ReturnedNone, w, calls).

(** [Form.query.filter_by(confirmed=True, email=email)], read when the page
    is rendered. *)
Definition Form_query_confirmed_by_email (email : string) (w : World) : list Form :=
  (map_to_list
     (filter (λ kf, form_confirmed kf.2 = true ∧ form_email kf.2 = email) (forms w))).*2.

(** Lines 422-450: the unconfirm link and the one-click unsubscribe. *)
Definition unconfirm_form (form_pk : Z) (digest : string) (request : Request)
    (w : World) : Reply * World :=
  let '(form, w) := Form_query_get form_pk w in
  match form with
  | None => (Reply_failed (NoneAttribute "unconfirm_with_digest"), w)
  | Some form =>
      let '(success, form, w) := Form_unconfirm_with_digest form digest w in
      if String.eqb (req_method request) "GET" then
        if success then
          let w := with_unconfirming (Some (form_email form)) w in
          let other_forms := Form_query_confirmed_by_email (form_email form) w in
          (Reply_unconfirm_page other_forms form, w)
        else
          (Reply_response
             (Response_mk 400
                (Page "error.html" "Not a valid link"
                   "This unconfirmation link is not valid.")), w)
      else if String.eqb (req_method request) "POST" then
        if success
        then (Reply_response (Response_mk 200 (Text EmptyString)), w)
        else (Reply_abort 401, w)
      else (Reply_failed ReturnedNone, w)
  end.

(** [current_user.has_feature(name)]. *)
Definition user_has_feature (user : User) (name : string) : bool :=
  bool_decide (name ∈ user_features user).

(** One line of [csv.DictWriter.writerow]: a key outside the field names is
    an error, a field without a value is left empty. *)
Definition csv_row (fieldnames : list string) (sub : Data) : option (list string) :=
  if bool_decide (dom sub ⊆ (list_to_set fieldnames : gset string))
  then Some ((λ field, default EmptyString (sub !! field)) <$> fieldnames)
  else None.

Definition export_filename (hashid extension : string) `{Accounts} : string :=
  "form-" +:+ hashid +:+ "-submissions-" +:+ now_isoformat +:+ "." +:+ extension.

(** Lines 508-548: the export of a form's archive.  [current_user] is None
    for a caller who is not logged in. *)
Definition export_submissions `{Accounts} (hashid : string) (format : option string)
    (current_user : option User) (w : World) : Reply * World :=
  match current_user with
  | None => (Reply_login_required, w)
  | Some current_user =>
      if negb (user_has_feature current_user "dashboard")
      then (Reply_response
              (jsonerror 402 [("error", "Please upgrade your account.")]), w)
      else
        let '(form, w) := Form_get_with_hashid hashid w in
        match form with
        | None => (Reply_failed (NoneAttribute "controlled_by"), w)
        | Some form =>
            if negb (controlled_by form current_user) then (Reply_abort 401, w)
            else
              let '(submissions, fields) := submissions_with_fields form w in
              if bool_decide (format = Some "json") then
                (Reply_json_file (export_filename hashid "json") (form_host form)
                   (form_email form) fields submissions, w)
              else if bool_decide (format = Some "csv") then
                match mapM (csv_row ("id" :: fields)) submissions with
                | Some rows =>
                    (Reply_csv_file (export_filename hashid "csv")
                       ("id" :: fields) rows, w)
                | None => (Reply_failed CsvExtraField, w)
                end
              else (Reply_failed ReturnedNone, w)
        end
  end.

End OtherViews.

(** An export that hands out a file with the archive. *)
Definition is_file (reply : Reply) : bool :=
  match reply with
  | Reply_json_file _ _ _ _ _ | Reply_csv_file _ _ _ => true
  | _ => false
  end.

(** ** Sample provider and accounts

    One concrete bounce list and one concrete account, used to run the
    other views on concrete requests. *)

Module Cases.

(** The provider lists one bounce, for blocked@example.com. *)
#[export] Instance sendgrid : Sendgrid := {|
  bounces_get := λ email,
    if String.eqb email "blocked@example.com"
    then (true, [{["email" := email; "reason" := "550 mailbox unavailable"]}])
    else (true, []);
  bounces_delete := λ email,
    (true, {["message" := if String.eqb email "blocked@example.com"
                          then "success" else "Email does not exist"]})
|}.

(** Account 7 controls every form; the archive of a form is what was
    stored for its id, and the fields are name and email. *)
#[export] Instance accounts : Accounts := {|
  controlled_by := λ form user, bool_decide (user_id user = 7);
  submissions_with_fields := λ form w,
    (snd <$> filter (λ row : Z * Data, Some row.1 = form_id form) (submissions w),
     ["email"; "name"]);
  now_isoformat := "2019-03-01T12:00:00"
|}.

Definition owner : User := {| user_id := 7; user_features := ["dashboard"] |}.

(** A request to the resend or unblock endpoint for the given host, with
    the captcha passed. *)
Definition provider_request (host : string) : Request :=
  {| req_method := "POST";
     req_form := [("host", host); ("g-recaptcha-response", "passed")];
     req_json := No_json; req_referrer := None; req_wants_json := false;
     req_path := "/"; req_browser := Some "firefox"; req_form_ids := [] |}.

(** A link followed in a browser, and the one-click POST of a mail client. *)
Definition click : Request :=
  {| req_method := "GET"; req_form := []; req_json := No_json;
     req_referrer := None; req_wants_json := false;
     req_path := "/"; req_browser := Some "firefox"; req_form_ids := [] |}.

Definition one_click : Request :=
  {| req_method := "POST"; req_form := []; req_json := No_json;
     req_referrer := None; req_wants_json := false;
     req_path := "/"; req_browser := None; req_form_ids := [] |}.

(** A world with the given Form table and archive and nothing else. *)
Definition archive_world (table : gmap Z Form) (archive : list (Z * Data)) : World :=
  {| forms := table; hostnames := ∅; minted := 0; first_submissions := ∅;
     outbox := []; submissions := archive; unconfirming := None; trace := []; clock := 0 |}.

End Cases.

(** * Properties *)

Section Unconfirm.

Context `{Env}.

Lemma unconfirm_loop_stores email ids session w r w' :
  unconfirm_loop email ids session w = (r, w') → stores w' = stores w.
Proof.
  revert session w. induction ids as [|pk ids IH]; intros session w; simpl.
  - by intros [= _ <-].
  - destruct (session !! pk) as [form|]; [|by intros [= _ <-]].
    destruct (String.eqb _ _); intros Hloop; by apply IH in Hloop.
Qed.

Lemma unconfirm_loop_missing email ids session w :
  (∃ pk, pk ∈ ids ∧ session !! pk = None) →
  ∃ w', unconfirm_loop email ids session w = (inl (AttributeError "email"), w').
Proof.
  revert session w. induction ids as [|pk ids IH]; intros session w [bad [Hin Hbad]].
  - by apply elem_of_nil in Hin.
  - simpl. destruct (session !! pk) as [form|] eqn:Hpk; [|eauto].
    assert (bad ∈ ids) as Hin'.
    { apply elem_of_cons in Hin as [->|]; [congruence|done]. }
    destruct (String.eqb _ _); apply IH; exists bad; split; try done.
    rewrite lookup_insert_ne; [done|congruence].
Qed.

(** The loop when every supplied id has a row: exactly the rows that were
    supplied and belong to the email are unconfirmed. *)
Lemma unconfirm_loop_present email ids session w :
  (∀ pk, pk ∈ ids → is_Some (session !! pk)) →
  ∃ session' w',
    unconfirm_loop email ids session w = (inr session', w') ∧
    ∀ pk, session' !! pk =
            (λ form, if bool_decide (pk ∈ ids) && String.eqb (form_email form) email
                     then set_confirmed false form else form) <$> session !! pk.
Proof.
  revert session w. induction ids as [|pk0 ids IH]; intros session w Hall; simpl.
  - eexists _, _; split; [done|]. intros pk. by destruct (session !! pk).
  - destruct (Hall pk0) as [form0 Hpk0]; [left|]. rewrite Hpk0.
    destruct (String.eqb (form_email form0) email) eqn:Hmail.
    + destruct (IH (<[pk0 := set_confirmed false form0]> session)
                  (with_event (Query_get pk0) w)) as (s' & w' & -> & Hs').
      { intros pk Hin. destruct (decide (pk0 = pk)) as [->|].
        - rewrite lookup_insert_eq; eauto.
        - rewrite lookup_insert_ne; [|done]. apply Hall. by right. }
      eexists _, _; split; [done|]. intros pk. rewrite Hs'.
      destruct (decide (pk0 = pk)) as [->|Hne].
      * rewrite lookup_insert_eq, Hpk0. simpl.
        rewrite (bool_decide_eq_true_2 (pk ∈ pk :: ids)); [|left]. simpl.
        rewrite Hmail. by destruct (bool_decide (pk ∈ ids)).
      * rewrite lookup_insert_ne; [|done].
        destruct (session !! pk) as [form|]; [simpl|done].
        rewrite (bool_decide_ext (pk ∈ pk0 :: ids) (pk ∈ ids)); [done|].
        rewrite elem_of_cons. split; [intros [?|?]; [congruence|done]|by right].
    + destruct (IH session (with_event (Query_get pk0) w)) as (s' & w' & -> & Hs').
      { intros pk Hin. apply Hall. by right. }
      eexists _, _; split; [done|]. intros pk. rewrite Hs'.
      destruct (session !! pk) as [form|] eqn:Hpk; [simpl|done].
      destruct (decide (pk0 = pk)) as [->|Hne].
      * assert (form = form0) as -> by congruence. rewrite Hmail.
        by rewrite !andb_false_r.
      * rewrite (bool_decide_ext (pk ∈ pk0 :: ids) (pk ∈ ids)); [done|].
        rewrite elem_of_cons. split; [intros [?|?]; [congruence|done]|by right].
Qed.

(** C9.  With the marker present, a supplied form id that has no Form row
    makes the bulk opt-out raise on the access to the email of None; the
    commit after the loop is never reached, so the Form table (and every
    other store) is left as it was, also for valid ids listed before the
    bad one. *)
Theorem unconfirm_multiple_missing_id request w email :
  unconfirming w = Some email → email ≠ EmptyString →
  (∃ pk, pk ∈ req_form_ids request ∧ forms w !! pk = None) →
  ∃ w', unconfirm_multiple request w = (Raised (AttributeError "email"), w') ∧
        forms w' = forms w ∧ stores w' = stores w.
Proof.
  intros Hmarker Hne Hbad. unfold unconfirm_multiple. rewrite Hmarker.
  destruct email as [|a email]; [done|].
  destruct (unconfirm_loop_missing (String a email) (req_form_ids request)
              (forms w) w Hbad) as [w' Hloop].
  rewrite Hloop. exists w'. split; [done|].
  apply unconfirm_loop_stores in Hloop. split; [|done].
  by injection Hloop.
Qed.

(** Without the marker the bulk opt-out answers 401 and changes nothing. *)
Theorem unconfirm_multiple_unauthorized request w :
  Py.truthy (unconfirming w) = false →
  ∃ r, unconfirm_multiple request w = (Responded r, w) ∧ status_code r = 401.
Proof.
  intros Hmarker. unfold unconfirm_multiple.
  destruct (unconfirming w) as [[|a email]|]; try done; by eexists.
Qed.

(** With the marker present and a row behind every supplied id, the bulk
    opt-out succeeds, and afterwards a row is unconfirmed if it was supplied
    and belongs to the marker's email, and is unchanged otherwise. *)
Theorem unconfirm_multiple_scoped request w email :
  unconfirming w = Some email → email ≠ EmptyString →
  (∀ pk, pk ∈ req_form_ids request → is_Some (forms w !! pk)) →
  ∃ r w', unconfirm_multiple request w = (Responded r, w') ∧
    status_code r = 200 ∧
    ∀ pk, forms w' !! pk =
            (λ form, if bool_decide (pk ∈ req_form_ids request)
                        && String.eqb (form_email form) email
                     then set_confirmed false form else form) <$> forms w !! pk.
Proof.
  intros Hmarker Hne Hall. unfold unconfirm_multiple. rewrite Hmarker.
  destruct email as [|a email]; [done|].
  destruct (unconfirm_loop_present (String a email) (req_form_ids request)
              (forms w) w Hall) as (session' & w' & -> & Hrows).
  by eexists _, _.
Qed.

End Unconfirm.

Section Send.

Context `{Env}.

Lemma quiet_refl w : quiet w w.
Proof. by repeat split. Qed.

Lemma quiet_trans w1 w2 w3 : quiet w1 w2 → quiet w2 w3 → quiet w1 w3.
Proof.
  intros (?&?&?&?&?) (?&?&?&?&?). repeat split; congruence.
Qed.

Lemma quiet_with_forms table w : quiet w (with_forms table w).
Proof. by repeat split. Qed.

Lemma quiet_query e w : is_captcha_check e = false → quiet w (with_event e w).
Proof.
  intros He. repeat split; try done. unfold captcha_checks. simpl.
  rewrite filter_app, length_app, filter_cons_False, filter_nil; [simpl; lia|].
  rewrite He. by intros [].
Qed.

Lemma DB_commit_quiet form w form' w' :
  DB_commit form w = (form', w') → quiet w w'.
Proof.
  unfold DB_commit. destruct (form_id form); intros [= _ <-]; apply quiet_with_forms.
Qed.

Lemma assign_ajax_quiet form ajax w form' w' :
  assign_ajax form ajax w = (form', w') → quiet w w'.
Proof.
  unfold assign_ajax. destruct (form_uses_ajax form).
  - intros [= _ <-]. apply quiet_refl.
  - apply DB_commit_quiet.
Qed.

(** [assign_ajax] touches the channel preference and, for a new row, the
    id; every other field stays. *)
Lemma assign_ajax_fields form ajax w form' w' :
  assign_ajax form ajax w = (form', w') →
  form_disabled form' = form_disabled form ∧
  form_confirmed form' = form_confirmed form ∧
  form_confirm_sent form' = form_confirm_sent form ∧
  form_host form' = form_host form ∧
  form_email form' = form_email form ∧
  form_hash form' = form_hash form ∧
  form_sitewide form' = form_sitewide form.
Proof.
  unfold assign_ajax, DB_commit. destruct (form_uses_ajax form).
  - by intros [= <- _].
  - simpl. destruct (form_id form); by intros [= <- _].
Qed.

(** An early answer of the identity stage is the answer of [send]. *)
Lemma send_early email_or_string request w host referrer r w' :
  resolves_origin request w host referrer →
  send_form email_or_string request host w = (inl r, w') →
  send email_or_string request w = (r, w').
Proof.
  intros [Hpost Horigin] Hform. unfold send.
  apply String.eqb_neq in Hpost. rewrite Hpost.
  destruct (send_received request) as [received_data sorted_keys].
  simpl in Horigin. by rewrite Horigin, Hform.
Qed.

(** Past the identity stage, [send] is the dispatch followed by the
    answer to its status. *)
Lemma send_late email_or_string request w host referrer form email w1 :
  reaches_admission email_or_string request w host referrer form email w1 →
  send email_or_string request w =
    match send_dispatch email_or_string request (send_received request).1
            (send_received request).2 referrer form w1 with
    | (inl r, w') => (r, w')
    | (inr status, w') => (send_respond request email host referrer status, w')
    end.
Proof.
  intros [[Hpost Horigin] Hform]. unfold send.
  apply String.eqb_neq in Hpost. rewrite Hpost.
  destruct (send_received request) as [received_data sorted_keys].
  simpl in *. by rewrite Horigin, Hform.
Qed.

Lemma send_form_quiet email_or_string request host w r w' :
  send_form email_or_string request host w = (r, w') → quiet w w'.
Proof.
  unfold send_form, Form_get_with_hashid, Form_query_by_hash.
  destruct (IS_VALID_EMAIL email_or_string); simpl.
  - set (w0 := with_event _ w).
    assert (quiet w w0) as Hw0 by by apply quiet_query.
    destruct (snd <$> _) as [form|].
    + destruct (assign_ajax form _ w0) as [form' w1] eqn:Hajax.
      apply assign_ajax_quiet in Hajax.
      destruct (form_disabled form'); intros [= _ <-]; by eapply quiet_trans.
    + destruct (req_wants_json request); [by intros [= _ <-]|].
      destruct (Py.contains _ _); [by intros [= _ <-]|].
      destruct (assign_ajax _ _ w0) as [form' w1] eqn:Hajax.
      apply assign_ajax_quiet in Hajax.
      destruct (form_disabled form'); intros [= _ <-]; by eapply quiet_trans.
  - set (w0 := with_event _ w).
    assert (quiet w w0) as Hw0 by by apply quiet_query.
    destruct (_ ≫= _) as [form|].
    + destruct (assign_ajax form _ w0) as [form' w1] eqn:Hajax.
      apply assign_ajax_quiet in Hajax.
      destruct (form_disabled form'); [intros [= _ <-]; by eapply quiet_trans|].
      destruct (form_host form') as [[|a fhost]|].
      * destruct (DB_commit _ w1) as [form'' w2] eqn:Hcommit.
        apply DB_commit_quiet in Hcommit. intros [= _ <-].
        eapply quiet_trans; [done|]. by eapply quiet_trans.
      * destruct (different_host _ _ _); intros [= _ <-]; by eapply quiet_trans.
      * destruct (DB_commit _ w1) as [form'' w2] eqn:Hcommit.
        apply DB_commit_quiet in Hcommit. intros [= _ <-].
        eapply quiet_trans; [done|]. by eapply quiet_trans.
    + destruct (req_wants_json request); by intros [= _ <-].
Qed.

(** C3.  A submission whose resolved form is disabled, whether the form was
    found by hash-id or by the hash of (email, host), is answered with the
    403 "Form not active" response, whatever the confirmed flag, the
    captcha token and the payload are; up to that answer no mail is sent,
    no confirmation payload is stored, no Submission is recorded, no nonce
    is minted and no captcha verdict is asked for. *)
Theorem send_disabled_form email_or_string request w host referrer form :
  resolves_origin request w host referrer →
  resolves_to email_or_string host w form →
  form_disabled form = true →
  ∃ w', send email_or_string request w = (form_not_active request, w') ∧
        status_code (form_not_active request) = 403 ∧
        quiet w w'.
Proof.
  intros Horigin Hres Hdisabled.
  destruct (send_form email_or_string request host w) as [r w'] eqn:Hform.
  assert (r = inl (form_not_active request)) as ->.
  { unfold send_form in Hform. unfold resolves_to in Hres.
    destruct (IS_VALID_EMAIL email_or_string); cbn [negb] in Hform.
    - destruct (Form_query_by_hash _ w) as [found w0]. simpl in Hres. subst found.
      destruct (assign_ajax form _ w0) as [form' w1] eqn:Hajax.
      apply assign_ajax_fields in Hajax as (Hd & _).
      rewrite Hd, Hdisabled in Hform. by injection Hform.
    - destruct (Form_get_with_hashid _ w) as [found w0]. simpl in Hres. subst found.
      destruct (assign_ajax form _ w0) as [form' w1] eqn:Hajax.
      apply assign_ajax_fields in Hajax as (Hd & _).
      rewrite Hd, Hdisabled in Hform. by injection Hform. }
  exists w'. split; [by eapply send_early|]. split.
  - unfold form_not_active. by destruct (req_wants_json request).
  - by eapply send_form_quiet.
Qed.

(** C5.  A target token that is a valid email address is lower-cased, by
    Python's [str.lower], and the form is looked up by the hash of (email,
    resolved host).  A form that is found is used as it is.  When none is
    found, a JSON caller is refused with status 400, a caller whose host
    contains the service's own domain is refused with status 400, and in
    every other case a new unconfirmed Form bound to (email, host) is
    constructed and handed on.  For a token of ASCII characters the
    lower-cased email is the token with A-Z turned into a-z. *)
Theorem send_email_target email_or_string request w host referrer :
  resolves_origin request w host referrer →
  IS_VALID_EMAIL email_or_string = true →
  let email := Py.lower email_or_string in
  let found := (Form_query_by_hash (HASH email host) w).1 in
  let w0 := (Form_query_by_hash (HASH email host) w).2 in
  (∀ form, found = Some form →
     send_form email_or_string request host w =
       (let '(form', w1) := assign_ajax form (req_wants_json request) w0 in
        if form_disabled form' then (inl (form_not_active request), w1)
        else (inr (form', email), w1))) ∧
  (found = None →
     (req_wants_json request = true →
        ∃ r, send email_or_string request w = (r, w0) ∧ status_code r = 400) ∧
     (req_wants_json request = false →
      Py.contains host (url_domain SERVICE_URL) = true →
        ∃ r, send email_or_string request w = (r, w0) ∧ status_code r = 400) ∧
     (req_wants_json request = false →
      Py.contains host (url_domain SERVICE_URL) = false →
        ∃ form w1,
          send_form email_or_string request host w = (inr (form, email), w1) ∧
          assign_ajax (Form_new email host) false w0 = (form, w1) ∧
          form_confirmed form = false ∧ form_confirm_sent form = false ∧
          form_email form = email ∧ form_host form = Some host ∧
          form_hash form = Some (HASH email host))) ∧
  (Py.is_ascii email_or_string = true → email = Py.lower_bytes email_or_string).
Proof.
  intros Horigin Hvalid email found w0. subst found w0.
  unfold send_form. rewrite Hvalid. simpl negb. cbv iota. fold email.
  destruct (Form_query_by_hash (HASH email host) w) as [found w0] eqn:Hquery.
  simpl fst; simpl snd. split; [|split].
  - by intros form ->.
  - intros ->. split; [|split].
    + intros Hjson. eexists. split; [|shelve].
      eapply send_early; [done|]. unfold send_form.
      rewrite Hvalid. cbn [negb]. cbv iota. fold email.
      rewrite Hquery, Hjson. reflexivity.
      Unshelve. reflexivity.
    + intros Hjson Hspoof. eexists. split; [|shelve].
      eapply send_early; [done|]. unfold send_form.
      rewrite Hvalid. cbn [negb]. cbv iota. fold email.
      rewrite Hquery, Hjson, Hspoof. reflexivity.
      Unshelve. reflexivity.
    + intros Hjson Hspoof. rewrite Hjson, Hspoof.
      destruct (assign_ajax (Form_new email host) false w0) as [form w1] eqn:Hajax.
      pose proof (assign_ajax_fields _ _ _ _ _ Hajax) as (Hd & Hc & Hcs & Hh & He & Hhash & _).
      rewrite Hd. simpl. eexists _, _. by repeat split.
  - apply Py.lower_ascii_text.
Qed.

(** C1, as amended.  For a form found by hash-id that is not disabled and
    has its host set, the submission gets past the Trust Guard exactly when
    the Trust Rule holds; otherwise [send] answers with status 403 and
    names both the submitted and the confirmed host.  For a sitewide form
    confirmed for example.com, the host www.example.com passes, while
    blog.example.com and evilexample.com are turned away. *)
Theorem send_trust_rule email_or_string request w host referrer form fhost :
  resolves_origin request w host referrer →
  IS_VALID_EMAIL email_or_string = false →
  (Form_get_with_hashid email_or_string w).1 = Some form →
  form_disabled form = false →
  form_host form = Some fhost → fhost ≠ EmptyString →
  let w0 := (Form_get_with_hashid email_or_string w).2 in
  let form' := (assign_ajax form (req_wants_json request) w0).1 in
  let w1 := (assign_ajax form (req_wants_json request) w0).2 in
  (trust_rule (form_sitewide form) fhost host ↔
     send_form email_or_string request host w = (inr (form', form_email form), w1)) ∧
  (¬ trust_rule (form_sitewide form) fhost host →
     send email_or_string request w = (host_rejection request host fhost, w1) ∧
     status_code (host_rejection request host fhost) = 403 ∧
     discloses (host_rejection request host fhost) host fhost) ∧
  different_host true "example.com" "www.example.com" = false ∧
  different_host true "example.com" "blog.example.com" = true ∧
  different_host true "example.com" "evilexample.com" = true.
Proof.
  intros Horigin Hvalid Hfound Henabled Hhost Hset w0 form' w1.
  assert (send_form email_or_string request host w =
            if different_host (form_sitewide form) fhost host
            then (inl (host_rejection request host fhost), w1)
            else (inr (form', form_email form), w1)) as Hform.
  { unfold send_form. rewrite Hvalid. simpl negb. cbv iota.
    subst w0 form' w1.
    destruct (Form_get_with_hashid email_or_string w) as [found w0].
    simpl in Hfound. subst found. simpl fst; simpl snd.
    destruct (assign_ajax form _ w0) as [form' w1] eqn:Hajax.
    apply assign_ajax_fields in Hajax as (Hd & _ & _ & Hh & He & _ & Hs).
    rewrite Hd, Henabled, Hh, Hhost, He, Hs.
    by destruct fhost. }
  assert (trust_rule (form_sitewide form) fhost host ↔
            different_host (form_sitewide form) fhost host = false) as Hrule.
  { unfold trust_rule, different_host.
    destruct (form_sitewide form); simpl.
    - rewrite negb_false_iff. tauto.
    - rewrite orb_false_r, negb_false_iff. by rewrite String.eqb_eq. }
  split; [|split; [|by vm_compute]].
  - rewrite Hrule, Hform.
    destruct (different_host _ _ _); split; congruence.
  - intros Hviolated.
    assert (different_host (form_sitewide form) fhost host = true) as Hdiff.
    { apply not_false_iff_true. intros Hsame. by apply Hviolated, Hrule. }
    rewrite Hdiff in Hform. split; [by eapply send_early|].
    unfold host_rejection, discloses.
    destruct (req_wants_json request); simpl.
    + split; [done|]. split; apply list_elem_of_In; simpl; tauto.
    + split; [done|].
      exists ("This submission came from " +:+ Py.dq),
             (Py.dq +:+ " but the form was                                                 confirmed for address " +:+ Py.dq),
             Py.dq.
      reflexivity.
Qed.


(** The challenge of a confirmed form that needs a captcha. *)
Lemma send_dispatch_challenge email_or_string request data keys referrer form w :
  form_confirmed form = true →
  needs_captcha request form (verify_captcha data request) = true →
  ∃ template lang,
    send_dispatch email_or_string request data keys referrer form w =
      (inl (Response_mk 200
              (CaptchaPage template
                 (<["_host_nonce" := new_nonce (minted w)]> data) keys
                 (urljoin API_ROOT email_or_string) lang)),
       with_hostname (new_nonce (minted w)) (form_host form, req_referrer request)
         (with_event Captcha_check w)).
Proof.
  intros Hconfirmed Hneeds. unfold send_dispatch.
  rewrite Hconfirmed, Hneeds. unfold temp_store_hostname. simpl.
  destruct (data !! "_language") as [lang|]; [|by eexists _, _].
  destruct (template_exists _); by eexists _, _.
Qed.


(** C7, as the code has it.  When the Delivery Engine returns OVERLIMIT the
    view sends nothing more and answers a document caller with status 402,
    but a JSON caller with status 200 and an error object. *)
Theorem send_overlimit_status email_or_string request w host referrer form email w1 w2 :
  reaches_admission email_or_string request w host referrer form email w1 →
  send_dispatch email_or_string request (send_received request).1
    (send_received request).2 referrer form w1 = (inr STATUS_OVERLIMIT, w2) →
  ∃ r, send email_or_string request w = (r, w2) ∧
       (req_wants_json request = false → status_code r = 402) ∧
       (req_wants_json request = true →
          r = Response_mk 200 (Json [("error", "form over quota")])).
Proof.
  intros Hreach Hdispatch. rewrite (send_late _ _ _ _ _ _ _ _ Hreach), Hdispatch.
  eexists. split; [done|]. simpl. split; by intros ->.
Qed.

(** C8, as the code has it.  When the Delivery Engine returns REPLYTO_ERROR
    the view sends nothing more and answers a document caller with status
    400, but a JSON caller with status 500. *)
Theorem send_replyto_error_status email_or_string request w host referrer form email
    w1 w2 address back :
  reaches_admission email_or_string request w host referrer form email w1 →
  send_dispatch email_or_string request (send_received request).1
    (send_received request).2 referrer form w1 =
    (inr (STATUS_REPLYTO_ERROR address back), w2) →
  ∃ r, send email_or_string request w = (r, w2) ∧
       (req_wants_json request = false → status_code r = 400) ∧
       (req_wants_json request = true → status_code r = 500).
Proof.
  intros Hreach Hdispatch. rewrite (send_late _ _ _ _ _ _ _ _ Hreach), Hdispatch.
  eexists. split; [done|]. simpl. split; by intros ->.
Qed.

(** *** Two submissions in a row *)

Lemma prefix_same s : String.prefix s s = true.
Proof.
  induction s as [|a s IH]; [done|]. simpl.
  destruct (ascii_dec a a); [done|congruence].
Qed.

Lemma different_host_same sitewide host : different_host sitewide host host = false.
Proof.
  unfold different_host, Py.startswith.
  rewrite String.eqb_refl, prefix_same. by destruct sitewide.
Qed.

Lemma set_id_same form pk : form_id form = Some pk → set_id (Some pk) form = form.
Proof. destruct form. simpl. by intros ->. Qed.

(** What a commit does to the table. *)
Lemma DB_commit_spec form w form' w' :
  DB_commit form w = (form', w') →
  ∃ pk, form' = set_id (Some pk) form ∧
        w' = with_forms (<[pk := form']> (forms w)) w ∧
        match form_id form with
        | Some pk0 => pk0 = pk
        | None => forms w !! pk = None
        end.
Proof.
  unfold DB_commit. destruct (form_id form) as [pk|] eqn:Hid.
  - intros [= <- <-]. exists pk. by rewrite set_id_same.
  - intros [= <- <-]. eexists. split; [done|]. split; [done|].
    apply not_elem_of_dom, is_fresh.
Qed.

Lemma send_origin_hostnames request data w w' :
  hostnames w' = hostnames w →
  send_origin request data w' = send_origin request data w.
Proof.
  intros Hsame. unfold send_origin, get_temp_hostname. by rewrite Hsame.
Qed.

Lemma send_origin_nonempty request data w host referrer :
  send_origin request data w = inr (host, referrer) → host ≠ EmptyString.
Proof.
  unfold send_origin.
  assert (∀ h r,
    match (inr (h, r) : Response + (option string * option string)) with
    | inl r => inl r
    | inr (Some (String _ _ as host), referrer) => inr (host, referrer)
    | inr _ => inl (no_host request)
    end = inr (host, referrer) → host ≠ EmptyString) as Hcheck.
  { intros [[|a h]|] r; try done.
    intros Heq; inversion Heq; subst; intros Hempty; discriminate Hempty. }
  pose proof (Hcheck (Some (referrer_to_path (req_referrer request)))
                (req_referrer request)) as Hheader.
  destruct (send_unreadable request); [done|].
  destruct (data !! "_host_nonce") as [nonce|]; [|exact Hheader].
  destruct (get_temp_hostname nonce w) as [h r| |];
    [exact (Hcheck h r)|exact Hheader|done].
Qed.

(** The lookup by hash finds the one row that carries the hash. *)
Lemma query_by_hash_found h (table : gmap Z Form) pk form :
  table !! pk = Some form → form_hash form = Some h →
  (∀ pk' form', pk' ≠ pk → table !! pk' = Some form' → form_hash form' ≠ Some h) →
  snd <$> head (map_to_list (filter (λ kf, form_hash kf.2 = Some h) table))
    = Some form.
Proof.
  intros Hrow Hhash Hothers.
  assert (filter (λ kf : Z * Form, form_hash kf.2 = Some h) table = {[pk := form]}) as ->.
  { apply map_eq. intros i. destruct (decide (i = pk)) as [->|Hne].
    - rewrite lookup_singleton_eq. by apply map_lookup_filter_Some.
    - rewrite lookup_singleton_ne; [|done]. apply map_lookup_filter_None.
      right. intros form' Hrow'. by apply Hothers in Hrow'. }
  by rewrite map_to_list_singleton.
Qed.

Lemma query_by_hash_Some h (table : gmap Z Form) form :
  snd <$> head (map_to_list (filter (λ kf, form_hash kf.2 = Some h) table))
    = Some form →
  ∃ pk, table !! pk = Some form ∧ form_hash form = Some h.
Proof.
  destruct (head _) as [[pk form']|] eqn:Hhead; [|done]. intros [= ->].
  apply head_Some_elem_of, elem_of_map_to_list, map_lookup_filter_Some in Hhead.
  by exists pk.
Qed.

Lemma query_by_hash_None h (table : gmap Z Form) pk form :
  snd <$> head (map_to_list (filter (λ kf, form_hash kf.2 = Some h) table))
    = None →
  table !! pk = Some form → form_hash form ≠ Some h.
Proof.
  destruct (head _) as [?|] eqn:Hhead; [done|]. intros _ Hrow Hhash.
  apply head_None, map_to_list_empty_iff in Hhead.
  assert (filter (λ kf : Z * Form, form_hash kf.2 = Some h) table !! pk = Some form)
    as Hin by by apply map_lookup_filter_Some.
  by rewrite Hhead in Hin.
Qed.

Lemma assign_ajax_persisted form ajax w form' w' pk :
  form_id form = Some pk → forms w !! pk = Some form →
  assign_ajax form ajax w = (form', w') →
  form_id form' = Some pk ∧ forms w' !! pk = Some form' ∧
  (∀ pk', pk' ≠ pk → forms w' !! pk' = forms w !! pk') ∧
  is_Some (form_uses_ajax form').
Proof.
  intros Hid Hrow. unfold assign_ajax.
  destruct (form_uses_ajax form) as [b|] eqn:Hajax.
  - intros [= <- <-]. by rewrite Hajax.
  - intros (pk0 & -> & -> & Hpk)%DB_commit_spec. simpl in Hpk.
    rewrite Hid in Hpk. subst pk0. simpl.
    rewrite lookup_insert_eq. repeat split; eauto.
    intros pk' Hne. by rewrite lookup_insert_ne.
Qed.

Lemma assign_ajax_new form ajax w form' w' :
  form_id form = None → form_uses_ajax form = None →
  assign_ajax form ajax w = (form', w') →
  ∃ pk, forms w !! pk = None ∧
        form_id form' = Some pk ∧ forms w' !! pk = Some form' ∧
        (∀ pk', pk' ≠ pk → forms w' !! pk' = forms w !! pk') ∧
        is_Some (form_uses_ajax form').
Proof.
  intros Hid Hajax. unfold assign_ajax. rewrite Hajax.
  intros (pk & -> & -> & Hpk)%DB_commit_spec. simpl in Hpk.
  rewrite Hid in Hpk. exists pk. simpl.
  rewrite lookup_insert_eq. repeat split; eauto.
  intros pk' Hne. by rewrite lookup_insert_ne.
Qed.

(** What is known of a form that reaches the admission stage: it is a row
    of the table, every other row is as before, and it is the row the same
    target will find again. *)
Lemma send_form_persisted email_or_string request host w form email w1 :
  host ≠ EmptyString →
  db_consistent (forms w) → hash_unique (forms w) →
  send_form email_or_string request host w = (inr (form, email), w1) →
  ∃ pk, form_id form = Some pk ∧ forms w1 !! pk = Some form ∧
        (∀ pk', pk' ≠ pk → forms w1 !! pk' = forms w !! pk') ∧
        is_Some (form_uses_ajax form) ∧ form_disabled form = false ∧
        if IS_VALID_EMAIL email_or_string
        then email = Py.lower email_or_string ∧
             form_hash form = Some (HASH (Py.lower email_or_string) host) ∧
             (∀ pk' form', pk' ≠ pk → forms w !! pk' = Some form' →
                form_hash form' ≠ Some (HASH (Py.lower email_or_string) host))
        else email = form_email form ∧
             hashid_decode email_or_string = Some pk ∧
             ∃ fhost, form_host form = Some fhost ∧ fhost ≠ EmptyString ∧
                      different_host (form_sitewide form) fhost host = false.
Proof.
  intros Hhost Hcons Huniq. unfold send_form.
  destruct (IS_VALID_EMAIL email_or_string); cbn [negb]; cbv iota.
  - unfold Form_query_by_hash.
    set (h := HASH (Py.lower email_or_string) host).
    set (w0 := with_event (Query_hash h) w).
    destruct (snd <$> head _) as [found|] eqn:Hquery.
    + apply query_by_hash_Some in Hquery as (pk & Hrow & Hhash).
      pose proof (map_Forall_lookup_1 _ _ _ _ Hcons Hrow) as Hid. simpl in Hid.
      destruct (assign_ajax found _ w0) as [form' w'] eqn:Hajax.
      pose proof (assign_ajax_fields _ _ _ _ _ Hajax) as (Hd & _ & _ & _ & _ & Hh & _).
      apply (assign_ajax_persisted _ _ _ _ _ pk) in Hajax as (Hid' & Hrow' & Hrest & Hset);
        [|done..].
      destruct (form_disabled form') eqn:Hdisabled; [done|].
      intros [= <- <- <-]. exists pk. repeat split; try done.
      * by rewrite Hh.
      * intros pk' form'' Hne Hrow'' Hhash''.
        apply Hne.
        pose proof (map_Forall_lookup_1 _ _ _ _ Huniq Hrow'') as Hpairs.
        pose proof (map_Forall_lookup_1 _ _ _ _ Hpairs Hrow) as Heq.
        simpl in Heq. apply Heq; [by rewrite Hhash''|congruence].
    + destruct (req_wants_json request); [done|].
      destruct (Py.contains _ _); [done|].
      destruct (assign_ajax _ _ w0) as [form' w'] eqn:Hajax.
      pose proof (assign_ajax_fields _ _ _ _ _ Hajax) as (Hd & _ & _ & _ & _ & Hh & _).
      apply assign_ajax_new in Hajax as (pk & Hfresh & Hid' & Hrow' & Hrest & Hset);
        [|done..].
      destruct (form_disabled form') eqn:Hdisabled; [done|].
      intros [= <- <- <-]. exists pk. repeat split; try done.
      intros pk' form'' Hne Hrow''.
      by eapply query_by_hash_None.
  - unfold Form_get_with_hashid.
    set (w0 := with_event (Query_hashid email_or_string) w).
    destruct (hashid_decode email_or_string) as [pk|] eqn:Hdecode; simpl.
    2:{ destruct (req_wants_json request); done. }
    destruct (forms w !! pk) as [found|] eqn:Hrow.
    2:{ destruct (req_wants_json request); done. }
    pose proof (map_Forall_lookup_1 _ _ _ _ Hcons Hrow) as Hid. simpl in Hid.
    destruct (assign_ajax found _ w0) as [form' w'] eqn:Hajax.
    apply (assign_ajax_persisted _ _ _ _ _ pk) in Hajax as (Hid' & Hrow' & Hrest & Hset);
      [|done..].
    destruct (form_disabled form') eqn:Hdisabled; [done|].
    assert (∀ form2 w2,
      DB_commit (set_host (Some host) form') w' = (form2, w2) →
      ((inr (form2, form_email form') : Response + Form * string), w2)
        = (inr (form, email), w1) →
      ∃ pk0, form_id form = Some pk0 ∧ forms w1 !! pk0 = Some form ∧
        (∀ pk', pk' ≠ pk0 → forms w1 !! pk' = forms w !! pk') ∧
        is_Some (form_uses_ajax form) ∧ form_disabled form = false ∧
        email = form_email form ∧ Some pk = Some pk0 ∧
        ∃ fhost, form_host form = Some fhost ∧ fhost ≠ EmptyString ∧
                 different_host (form_sitewide form) fhost host = false) as Hbind.
    { intros form2 w2 (pk0 & -> & -> & Hpk)%DB_commit_spec [= <- <- <-].
      simpl in Hpk. rewrite Hid' in Hpk. subst pk0. exists pk.
      simpl. rewrite lookup_insert_eq. repeat split; try done.
      - intros pk' Hne. rewrite lookup_insert_ne; [|done]. by apply Hrest.
      - exists host. repeat split; [done|]. apply different_host_same. }
    destruct (form_host form') as [[|a fhost]|] eqn:Hfhost.
    + destruct (DB_commit _ w') as [form2 w2] eqn:Hcommit. by apply Hbind.
    + destruct (different_host _ _ _) eqn:Hdiff; [done|].
      intros [= <- <- <-]. exists pk. repeat split; try done.
      exists (String a fhost). by repeat split.
    + destruct (DB_commit _ w') as [form2 w2] eqn:Hcommit. by apply Hbind.
Qed.

(** The same target on a world where the row has since had its
    confirmation sent: the identity stage hands on that row. *)
Lemma send_form_again email_or_string request host w form email w1 w2 pk :
  host ≠ EmptyString →
  db_consistent (forms w) → hash_unique (forms w) →
  send_form email_or_string request host w = (inr (form, email), w1) →
  form_id form = Some pk →
  forms w2 = <[pk := set_confirm_sent true form]> (forms w1) →
  ∃ e, is_captcha_check e = false ∧
       send_form email_or_string request host w2 =
         (inr (set_confirm_sent true form, email), with_event e w2).
Proof.
  intros Hhost Hcons Huniq Hform Hid Hw2.
  destruct (send_form_persisted _ _ _ _ _ _ _ Hhost Hcons Huniq Hform)
    as (pk0 & Hid0 & Hrow & Hrest & [b Hset] & Hdisabled & Hpath).
  assert (pk0 = pk) as -> by congruence.
  assert (forms w2 !! pk = Some (set_confirm_sent true form)) as Hrow2.
  { rewrite Hw2. apply lookup_insert_eq. }
  unfold send_form.
  destruct (IS_VALID_EMAIL email_or_string); cbn [negb]; cbv iota.
  - destruct Hpath as (-> & Hhash & Hothers).
    unfold Form_query_by_hash.
    rewrite (query_by_hash_found _ (forms w2) pk (set_confirm_sent true form));
      [|done|done|].
    + unfold assign_ajax. simpl. rewrite Hset. simpl. rewrite Hdisabled.
      by eexists (Query_hash _).
    + intros pk' form' Hne Hrow'.
      rewrite Hw2, lookup_insert_ne, Hrest in Hrow' by done. by eapply Hothers.
  - destruct Hpath as (-> & Hdecode & fhost & Hfhost & Hset' & Hsame).
    unfold Form_get_with_hashid. rewrite Hdecode. simpl. rewrite Hrow2.
    unfold assign_ajax. simpl. rewrite Hset. simpl. rewrite Hdisabled, Hfhost.
    destruct fhost as [|a fhost]; [done|]. rewrite Hsame.
    by eexists (Query_hashid _).
Qed.

(** The first confirmation of a form: one mail to the owner, the row
    marked, the payload kept under the row's key. *)
Lemma Form_send_confirmation_first form data w :
  form_confirm_sent form = false →
  ∃ pk m w2,
    Form_send_confirmation form data w = (STATUS_CONFIRMATION_SENT, w2) ∧
    forms w2 = <[pk := set_id (Some pk) (set_confirm_sent true form)]> (forms w) ∧
    (∀ pk0, form_id form = Some pk0 → pk = pk0) ∧
    first_submissions w2 = <[pk := data]> (first_submissions w) ∧
    outbox w2 = (outbox w ++ [m])%list ∧
    mail_to m = form_email form ∧ (∃ link, mail_body m = ConfirmationMail link) ∧
    hostnames w2 = hostnames w ∧ submissions w2 = submissions w ∧
    trace w2 = trace w.
Proof.
  intros Hfirst. unfold Form_send_confirmation. rewrite Hfirst.
  destruct (DB_commit _ _) as [form' w1] eqn:Hcommit.
  apply DB_commit_spec in Hcommit as (pk & -> & -> & Hpk). simpl in Hpk.
  simpl. eexists pk, _, _. split; [done|]. simpl. repeat split; eauto.
  intros pk0 Hid. rewrite Hid in Hpk. congruence.
Qed.

(** C2.  A submission that reaches the admission stage with a form that is
    not confirmed is answered from [Form.send_confirmation] alone: no
    captcha verdict is asked for, no nonce is minted, nothing is archived
    and no mail other than a confirmation mail is sent.  The first such
    submission yields CONFIRMATION_SENT, mails the owner once and stores
    the submitted payload as pending for the form; the same submission
    sent again before confirmation yields CONFIRMATION_DUPLICATED and
    sends no mail. *)
Theorem send_unconfirmed_form email_or_string request w host referrer form email w1 :
  reaches_admission email_or_string request w host referrer form email w1 →
  form_confirmed form = false →
  let data := (send_received request).1 in
  (∃ status w2,
     Form_send_confirmation form data w1 = (status, w2) ∧
     send email_or_string request w =
       (send_respond request email host referrer status, w2) ∧
     (status = STATUS_CONFIRMATION_SENT ∨ status = STATUS_CONFIRMATION_DUPLICATED) ∧
     captcha_checks w2 = captcha_checks w ∧ hostnames w2 = hostnames w ∧
     submissions w2 = submissions w ∧
     ∀ m, m ∈ outbox w2 →
          m ∈ outbox w ∨ ∃ link, mail_body m = ConfirmationMail link) ∧
  (form_confirm_sent form = false →
   ∃ w2 pk m,
     send email_or_string request w =
       (send_respond request email host referrer STATUS_CONFIRMATION_SENT, w2) ∧
     first_submissions w2 !! pk = Some data ∧
     (∃ form', forms w2 !! pk = Some form' ∧
               form_confirmed form' = false ∧ form_confirm_sent form' = true ∧
               form_email form' = form_email form) ∧
     outbox w2 = (outbox w ++ [m])%list ∧
     mail_to m = form_email form ∧ (∃ link, mail_body m = ConfirmationMail link) ∧
     (db_consistent (forms w) → hash_unique (forms w) →
      ∃ w3,
        send email_or_string request w2 =
          (send_respond request email host referrer STATUS_CONFIRMATION_DUPLICATED, w3) ∧
        outbox w3 = outbox w2 ∧ first_submissions w3 = first_submissions w2 ∧
        forms w3 = forms w2)).
Proof.
  intros Hreach Hunconfirmed data.
  pose proof (send_late _ _ _ _ _ _ _ _ Hreach) as Hsend.
  destruct Hreach as [[Hpost Horigin] Hform].
  pose proof (send_form_quiet _ _ _ _ _ _ Hform) as (Ho & Hs & Hf & Hh & Hc).
  unfold send_dispatch in Hsend. rewrite Hunconfirmed in Hsend. fold data in Hsend.
  split.
  - destruct (form_confirm_sent form) eqn:Hsent.
    + unfold Form_send_confirmation in *. rewrite Hsent in *.
      eexists _, _. split; [done|]. split; [done|]. split; [by right|].
      repeat split; try done. intros m Hm. left. by rewrite <- Ho.
    + destruct (Form_send_confirmation_first form data w1 Hsent)
        as (pk & m & w2 & Hconf & _ & _ & _ & Hout & _ & Hbody & Hhost2 & Hsub2 & Htrace).
      rewrite Hconf in Hsend. eexists _, _. split; [done|]. split; [done|].
      split; [by left|]. split.
      { unfold captcha_checks in *. by rewrite Htrace. }
      split; [congruence|]. split; [congruence|].
      intros m' Hm'. rewrite Hout, elem_of_app, list_elem_of_singleton in Hm'.
      destruct Hm' as [?| ->]; [left; by rewrite <- Ho|by right].
  - intros Hsent.
    destruct (Form_send_confirmation_first form data w1 Hsent)
      as (pk & m & w2 & Hconf & Hforms & Hpk & Hfirst & Hout & Hto & Hbody
          & Hhost2 & Hsub2 & Htrace).
    rewrite Hconf in Hsend. exists w2, pk, m.
    split; [done|]. split; [by rewrite Hfirst, lookup_insert_eq|]. split.
    { eexists. rewrite Hforms, lookup_insert_eq. by repeat split. }
    split; [by rewrite Hout, Ho|]. split; [done|]. split; [done|].
    intros Hcons Huniq.
    assert (host ≠ EmptyString) as Hhost by by eapply send_origin_nonempty.
    destruct (send_form_persisted _ _ _ _ _ _ _ Hhost Hcons Huniq Hform)
      as (pk0 & Hid & _).
    assert (pk = pk0) as -> by by apply Hpk.
    rewrite set_id_same in Hforms by done.
    destruct (send_form_again _ _ _ _ _ _ _ w2 pk0 Hhost Hcons Huniq Hform Hid Hforms)
      as (e & He & Hagain).
    assert (reaches_admission email_or_string request w2 host referrer
              (set_confirm_sent true form) email (with_event e w2)) as Hreach2.
    { repeat split; try done.
      rewrite <- Horigin. apply send_origin_hostnames. congruence. }
    rewrite (send_late _ _ _ _ _ _ _ _ Hreach2).
    unfold send_dispatch, Form_send_confirmation. simpl.
    rewrite Hunconfirmed. by eexists.
Qed.

(** A GET is answered with status 405 and changes nothing. *)
Theorem send_get email_or_string request w :
  req_method request = "GET" →
  ∃ r, send email_or_string request w = (r, w) ∧ status_code r = 405.
Proof.
  intros Hget. unfold send. rewrite Hget. simpl.
  destruct (req_wants_json request); by eexists.
Qed.

(** A POST that carries no host nonce and whose referrer header gives no
    host is answered with status 400 and changes nothing. *)
Theorem send_without_referrer email_or_string request w :
  req_method request ≠ "GET" →
  (send_received request).1 !! "_host_nonce" = None →
  referrer_to_path (req_referrer request) = EmptyString →
  ∃ r, send email_or_string request w = (r, w) ∧ status_code r = 400.
Proof.
  intros Hpost%String.eqb_neq Hnonce Hpath. unfold send. rewrite Hpost.
  destruct (send_received request) as [received_data sorted_keys].
  simpl in Hnonce. unfold send_origin, no_host. rewrite Hnonce, Hpath.
  destruct (send_unreadable request); [by eexists|].
  destruct (req_wants_json request); by eexists.
Qed.

(** A target that is neither an email address nor the hash-id of a form is
    answered with status 400; nothing is mailed or stored. *)
Theorem send_unknown_target email_or_string request w host referrer :
  resolves_origin request w host referrer →
  IS_VALID_EMAIL email_or_string = false →
  (Form_get_with_hashid email_or_string w).1 = None →
  ∃ r w', send email_or_string request w = (r, w') ∧ status_code r = 400 ∧
          quiet w w' ∧ forms w' = forms w.
Proof.
  intros Horigin Hvalid Hunknown.
  destruct (send_form email_or_string request host w) as [res w'] eqn:Hform.
  pose proof (send_form_quiet _ _ _ _ _ _ Hform) as Hquiet.
  assert (∃ r, res = inl r ∧ status_code r = 400 ∧ forms w' = forms w)
    as (r & -> & Hstatus & Hforms).
  { unfold send_form in Hform. rewrite Hvalid in Hform. cbn [negb] in Hform.
    destruct (Form_get_with_hashid email_or_string w) as [found w0] eqn:Hquery.
    simpl in Hunknown. subst found.
    assert (w0 = with_event (Query_hashid email_or_string) w) as ->.
    { unfold Form_get_with_hashid in Hquery. by injection Hquery. }
    destruct (req_wants_json request); injection Hform as <- <-; by eexists. }
  eexists _, _. split; [by eapply send_early|done].
Qed.

(** The first submission to a form made from the dashboard binds the form
    to the host it came from: the host is written to the row at once and
    the submission is let through, whatever the host is. *)
Theorem send_binds_first_host email_or_string request host w pk form :
  IS_VALID_EMAIL email_or_string = false →
  hashid_decode email_or_string = Some pk →
  forms w !! pk = Some form → form_id form = Some pk →
  form_disabled form = false → Py.truthy (form_host form) = false →
  ∃ form' w', send_form email_or_string request host w
                = (inr (form', form_email form), w') ∧
              form_host form' = Some host ∧ forms w' !! pk = Some form'.
Proof.
  intros Hvalid Hdecode Hrow Hid Henabled Hunset.
  unfold send_form, Form_get_with_hashid. rewrite Hvalid, Hdecode. simpl.
  rewrite Hrow.
  destruct (assign_ajax form _ _) as [form1 w1] eqn:Hajax.
  pose proof (assign_ajax_fields _ _ _ _ _ Hajax) as (Hd & _ & _ & Hh & He & _).
  apply (assign_ajax_persisted _ _ _ _ _ pk) in Hajax as (Hid1 & _); [|done..].
  rewrite Hd, Henabled, He.
  assert (∃ form' w', DB_commit (set_host (Some host) form1) w1 = (form', w') ∧
            form_host form' = Some host ∧ forms w' !! pk = Some form')
    as (form' & w' & Hcommit & Hhost & Hrow').
  { unfold DB_commit. simpl. rewrite Hid1. eexists _, _. split; [done|].
    split; [done|]. apply lookup_insert_eq. }
  rewrite Hh. destruct (form_host form) as [[|a fhost]|]; try done;
    rewrite Hcommit; by eexists _, _.
Qed.

End Send.

Section RequestUnconfirm.

Context `{Env}.

(** C10.  A request to the request-unconfirm endpoint whose User-Agent
    names no browser is answered at once with status 200 and an empty
    body; the world is left exactly as it was: no unsubscribe mail is sent
    and no form is looked up, whether or not the form id exists. *)
Theorem request_unconfirm_form_repels_bots form_pk request w :
  Py.truthy (req_browser request) = false →
  request_unconfirm_form form_pk request w =
    (Responded (Response_mk 200 (Text EmptyString)), w).
Proof.
  intros Hbot. unfold request_unconfirm_form. by rewrite Hbot.
Qed.

(** A browser gets the mail, after one lookup of the form. *)
Lemma request_unconfirm_form_browser form_pk request w form :
  Py.truthy (req_browser request) = true →
  forms w !! form_pk = Some form →
  ∃ r w', request_unconfirm_form form_pk request w = (Responded r, w') ∧
          status_code r = 200 ∧
          trace w' = (trace w ++ [Query_get form_pk])%list ∧
          ∃ m, outbox w' = (outbox w ++ [m])%list ∧ mail_to m = form_email form.
Proof.
  intros Hbrowser Hform. unfold request_unconfirm_form, Form_query_get.
  rewrite Hbrowser, Hform. simpl. eexists _, _. split; [done|].
  split; [done|]. split; [done|]. by eexists.
Qed.

End RequestUnconfirm.

(** * Further properties of the views *)

Section BulkOptOut.

Lemma unconfirm_loop_done email ids session w session' w' :
  unconfirm_loop email ids session w = (inr session', w') →
  ∀ pk, pk ∈ ids → is_Some (session !! pk).
Proof.
  intros Hloop pk Hin.
  destruct (session !! pk) as [form|] eqn:Hrow; [by eexists|].
  destruct (unconfirm_loop_missing email ids session w) as [w'' Hraise];
    [by exists pk|].
  rewrite Hraise in Hloop. discriminate Hloop.
Qed.

(** The session after a loop that went through, row by row. *)
Lemma unconfirm_loop_rows email ids session w session' w' :
  unconfirm_loop email ids session w = (inr session', w') →
  ∀ pk, session' !! pk =
          (λ form, if bool_decide (pk ∈ ids) && String.eqb (form_email form) email
                   then set_confirmed false form else form) <$> session !! pk.
Proof.
  intros Hloop.
  destruct (unconfirm_loop_present email ids session w) as (s & w0 & Hs & Hrows).
  { by eapply unconfirm_loop_done. }
  rewrite Hloop in Hs. by injection Hs as <- <-.
Qed.

(** What the bulk opt-out does to the rows, the marker and the outbox. *)
Lemma unconfirm_multiple_rows request w :
  let w' := (unconfirm_multiple request w).2 in
  (∀ pk, forms w' !! pk = forms w !! pk ∨
         ∃ form, forms w !! pk = Some form ∧ pk ∈ req_form_ids request ∧
                 unconfirming w = Some (form_email form) ∧
                 forms w' !! pk = Some (set_confirmed false form)) ∧
  dom (forms w') = dom (forms w) ∧
  unconfirming w' = unconfirming w ∧ outbox w' = outbox w.
Proof.
  unfold unconfirm_multiple.
  destruct (unconfirming w) as [[|a email]|] eqn:Hmarker; simpl;
    try (split; [by left|by rewrite ?Hmarker]).
  destruct (unconfirm_loop _ _ _ _) as [[e|session'] w'] eqn:Hloop; simpl.
  - apply unconfirm_loop_stores in Hloop. injection Hloop as Hf _ _ Ho _ Hu.
    rewrite Hf, Ho, Hu. split; [by left|done].
  - pose proof (unconfirm_loop_rows _ _ _ _ _ _ Hloop) as Hrows.
    apply unconfirm_loop_stores in Hloop. injection Hloop as _ _ _ Ho _ Hu.
    split; [|split; [|by rewrite Ho, Hu]].
    + intros pk. rewrite Hrows.
      destruct (forms w !! pk) as [form|] eqn:Hrow; [simpl|by left].
      destruct (bool_decide (pk ∈ req_form_ids request)) eqn:Hin; [|by left].
      destruct (String.eqb (form_email form) (String a email)) eqn:Hmail;
        [|by left].
      right. exists form. apply bool_decide_eq_true in Hin.
      apply String.eqb_eq in Hmail. by rewrite Hmail.
    + apply set_eq. intros pk. rewrite !elem_of_dom, Hrows.
      by rewrite fmap_is_Some.
Qed.

(** Whatever ids are supplied and however the request ends, the bulk
    opt-out leaves each Form row as it was or, for a supplied row whose
    email is the session marker, as it was with [confirmed] off.  It never
    turns [confirmed] on, never touches a row of another email, never adds
    or drops a row, and changes neither the marker nor the outbox. *)
Theorem unconfirm_multiple_frame request w :
  let w' := (unconfirm_multiple request w).2 in
  (∀ pk, forms w' !! pk = forms w !! pk ∨
         ∃ form, forms w !! pk = Some form ∧ pk ∈ req_form_ids request ∧
                 unconfirming w = Some (form_email form) ∧
                 forms w' !! pk = Some (set_confirmed false form)) ∧
  dom (forms w') = dom (forms w) ∧
  unconfirming w' = unconfirming w ∧ outbox w' = outbox w.
Proof. exact (unconfirm_multiple_rows request w). Qed.

(** The outcome of the loop does not depend on the world it runs in. *)
Lemma unconfirm_loop_world email ids session w1 w2 :
  (unconfirm_loop email ids session w1).1 = (unconfirm_loop email ids session w2).1.
Proof.
  revert session w1 w2. induction ids as [|pk ids IH]; intros session w1 w2; simpl.
  - done.
  - destruct (session !! pk) as [form|]; [|done].
    destruct (String.eqb _ _); apply IH.
Qed.

(** Sending the same bulk opt-out again changes nothing more: it ends the
    same way and leaves the same Form table. *)
Theorem unconfirm_multiple_again request w :
  (unconfirm_multiple request (unconfirm_multiple request w).2).1
    = (unconfirm_multiple request w).1 ∧
  forms (unconfirm_multiple request (unconfirm_multiple request w).2).2
    = forms (unconfirm_multiple request w).2.
Proof.
  pose proof (unconfirm_multiple_rows request w) as (_ & _ & Hmarker & _).
  simpl in Hmarker.
  destruct (unconfirm_multiple request w) as [o w1] eqn:Hfirst. simpl in *.
  unfold unconfirm_multiple in Hfirst |- *. rewrite Hmarker.
  destruct (unconfirming w) as [[|a email]|] eqn:Hm;
    try (by injection Hfirst as <- <-).
  destruct (unconfirm_loop _ _ (forms w) w) as [[e|session'] w0] eqn:Hloop;
    injection Hfirst as <- <-.
  - pose proof (unconfirm_loop_stores _ _ _ _ _ _ Hloop) as Hstores.
    injection Hstores as Hf _ _ _ _ _. rewrite Hf.
    pose proof (unconfirm_loop_world (String a email) (req_form_ids request)
                  (forms w) w w0) as Hsame.
    rewrite Hloop in Hsame. simpl in Hsame.
    destruct (unconfirm_loop _ _ (forms w) w0) as [[e'|s'] w2] eqn:Hloop2;
      simpl in *; [|done].
    injection Hsame as ->. split; [done|].
    apply unconfirm_loop_stores in Hloop2. injection Hloop2 as Hf2 _ _ _ _ _.
    congruence.
  - simpl.
    pose proof (unconfirm_loop_rows _ _ _ _ _ _ Hloop) as Hrows.
    destruct (unconfirm_loop_present (String a email) (req_form_ids request)
                session' (with_forms session' w0)) as (s2 & w2 & Hloop2 & Hrows2).
    { intros pk Hin. rewrite Hrows. apply fmap_is_Some.
      by eapply unconfirm_loop_done. }
    rewrite Hloop2. simpl. split; [done|].
    apply map_eq. intros pk. rewrite Hrows2, Hrows.
    destruct (forms w !! pk) as [form|]; [simpl|done].
    destruct (bool_decide (pk ∈ req_form_ids request)); [|done]. simpl.
    destruct (String.eqb (form_email form) (String a email)) eqn:Hmail; simpl;
      by rewrite Hmail.
Qed.

(** The bulk opt-out keeps the table in order: rows stay under their own
    ids and no two rows come to share a hash. *)
Theorem unconfirm_multiple_keeps_table request w :
  db_consistent (forms w) → hash_unique (forms w) →
  db_consistent (forms (unconfirm_multiple request w).2) ∧
  hash_unique (forms (unconfirm_multiple request w).2).
Proof.
  intros Hcons Huniq.
  pose proof (unconfirm_multiple_rows request w) as (Hrows & _). simpl in Hrows.
  set (w' := (unconfirm_multiple request w).2) in *.
  assert (∀ pk form', forms w' !! pk = Some form' →
            ∃ form, forms w !! pk = Some form ∧ form_id form' = form_id form ∧
                    form_hash form' = form_hash form) as Hback.
  { intros pk form' Hrow'. destruct (Hrows pk) as [Hsame|(form & Hrow & _ & _ & Hoff)].
    - exists form'. by rewrite <- Hsame.
    - exists form. rewrite Hoff in Hrow'. by injection Hrow' as <-. }
  split.
  - intros pk form' Hrow'. destruct (Hback _ _ Hrow') as (form & Hrow & Hid & _).
    simpl. rewrite Hid. by apply (map_Forall_lookup_1 _ _ _ _ Hcons Hrow).
  - intros pk1 form1' Hrow1' pk2 form2' Hrow2'. simpl.
    destruct (Hback _ _ Hrow1') as (form1 & Hrow1 & _ & Hh1).
    destruct (Hback _ _ Hrow2') as (form2 & Hrow2 & _ & Hh2).
    rewrite Hh1, Hh2.
    pose proof (map_Forall_lookup_1 _ _ _ _ Huniq Hrow1) as Hpairs.
    by apply (map_Forall_lookup_1 _ _ _ _ Hpairs Hrow2).
Qed.

End BulkOptOut.

Section Answers.

Context `{Env}.

Local Ltac one_of_the_codes := apply list_elem_of_In; simpl; tauto.

Lemma send_origin_answer request data w r :
  send_origin request data w = inl r →
  (status_code r = 400 ∧
   if req_wants_json request then ∃ obj, body r = Json obj
   else ∃ template title text, body r = Page template title text) ∨
  (status_code r = 500 ∧
   (∃ template title text, body r = Page template title text) ∧
   ∃ nonce, data !! "_host_nonce" = Some nonce ∧
            get_temp_hostname nonce w = TempValueError) ∨
  (r = bad_request ∧ send_unreadable request = true).
Proof.
  unfold send_origin.
  destruct (send_unreadable request); [intros [= <-]; by right; right|].
  assert (∀ h r0,
    match (inr (h, r0) : Response + (option string * option string)) with
    | inl r => inl r
    | inr (Some (String _ _ as host), referrer) => inr (host, referrer)
    | inr _ => inl (no_host request)
    end = inl r →
    status_code r = 400 ∧
    if req_wants_json request then ∃ obj, body r = Json obj
    else ∃ template title text, body r = Page template title text) as Hcheck.
  { intros [[|a h]|] r0; try done; intros [= <-]; unfold no_host;
      destruct (req_wants_json request); simpl; eauto. }
  pose proof (Hcheck (Some (referrer_to_path (req_referrer request)))
                (req_referrer request)) as Hheader.
  destruct (data !! "_host_nonce") as [nonce|]; [|left; by apply Hheader].
  destruct (get_temp_hostname nonce w) as [h r0| |] eqn:Hnonce.
  - left. by apply (Hcheck h r0).
  - left. by apply Hheader.
  - intros [= <-]. right. left. simpl. split; [done|]. split; [eauto|eauto].
Qed.

Lemma send_form_answer email_or_string request host w r w' :
  send_form email_or_string request host w = (inl r, w') →
  (status_code r = 400 ∨ status_code r = 403) ∧
  if req_wants_json request then ∃ obj, body r = Json obj
  else ∃ template title text, body r = Page template title text.
Proof.
  unfold send_form, form_not_active, host_rejection.
  destruct (IS_VALID_EMAIL email_or_string); cbn [negb]; cbv iota.
  - destruct (Form_query_by_hash _ w) as [[form|] w0].
    + destruct (assign_ajax form _ w0) as [form' w1].
      destruct (form_disabled form'); [|done].
      destruct (req_wants_json request); intros [= <- _]; simpl; eauto 6.
    + destruct (req_wants_json request); [intros [= <- _]; simpl; eauto|].
      destruct (Py.contains _ _); [intros [= <- _]; simpl; eauto 6|].
      destruct (assign_ajax _ _ w0) as [form' w1].
      destruct (form_disabled form'); [|done].
      intros [= <- _]; simpl; eauto 6.
  - destruct (Form_get_with_hashid _ w) as [[form|] w0].
    + destruct (assign_ajax form _ w0) as [form' w1].
      destruct (form_disabled form').
      { destruct (req_wants_json request); intros [= <- _]; simpl; eauto 6. }
      destruct (form_host form') as [[|a fhost]|].
      * by destruct (DB_commit _ w1).
      * destruct (different_host _ _ _); [|done].
        destruct (req_wants_json request); intros [= <- _]; simpl; eauto 6.
      * by destruct (DB_commit _ w1).
    + destruct (req_wants_json request); intros [= <- _]; simpl; eauto 6.
Qed.

Lemma send_dispatch_answer email_or_string request data keys referrer form w r w' :
  send_dispatch email_or_string request data keys referrer form w = (inl r, w') →
  status_code r = 200 ∧ req_wants_json request = false ∧
  ∃ template data' action lang, body r = CaptchaPage template data' keys action lang.
Proof.
  unfold send_dispatch.
  destruct (form_confirmed form); [|by destruct (Form_send_confirmation _ _ _)].
  destruct (needs_captcha _ _ _) eqn:Hneeds; [|by destruct (Form_send _ _ _ _ _)].
  assert (req_wants_json request = false) as Hdoc.
  { unfold needs_captcha in Hneeds. destruct (req_wants_json request); [|done].
    simpl in Hneeds. by destruct (has_feature _ _). }
  unfold temp_store_hostname. simpl.
  destruct (data !! "_language") as [lang|]; [destruct (template_exists _)|];
    intros [= <- _]; simpl; eauto 8.
Qed.

Lemma send_respond_answer request email host referrer status :
  status_code (send_respond request email host referrer status)
    ∈ [200; 302; 400; 402; 500] ∧
  if req_wants_json request
  then ∃ obj, body (send_respond request email host referrer status) = Json obj
  else ∀ obj, body (send_respond request email host referrer status) ≠ Json obj.
Proof.
  unfold send_respond.
  destruct status, (req_wants_json request); simpl;
    (split; [one_of_the_codes|]); eauto; done.
Qed.

(** [send] answers every request with one of seven status codes: 200, 302,
    400, 402, 403, 405 or 500; in particular never with 401 or 404. *)
Theorem send_status_codes email_or_string request w :
  status_code (send email_or_string request w).1
    ∈ [200; 302; 400; 402; 403; 405; 500].
Proof.
  unfold send. destruct (String.eqb _ _).
  { destruct (req_wants_json request); simpl; one_of_the_codes. }
  destruct (send_received request) as [data keys].
  destruct (send_origin request data w) as [r|[host referrer]] eqn:Horigin.
  { simpl.
    apply send_origin_answer in Horigin as [[Hcode _]|[[Hcode _]|[-> _]]];
      [rewrite Hcode..|simpl]; one_of_the_codes. }
  destruct (send_form _ _ _ w) as [[r|[form email]] w1] eqn:Hform.
  { simpl. apply send_form_answer in Hform as [[Hcode|Hcode] _];
      rewrite Hcode; one_of_the_codes. }
  destruct (send_dispatch _ _ _ _ _ _ w1) as [[r|status] w2] eqn:Hdispatch.
  { simpl. apply send_dispatch_answer in Hdispatch as [Hcode _].
    rewrite Hcode. one_of_the_codes. }
  simpl. destruct (send_respond_answer request email host referrer status) as [Hin _].
  apply list_elem_of_In in Hin. simpl in Hin. one_of_the_codes.
Qed.


(** A caller that does not ask for JSON never gets a JSON object from
    [send]. *)
Theorem send_document_caller email_or_string request w obj :
  req_wants_json request = false →
  body (send email_or_string request w).1 ≠ Json obj.
Proof.
  intros Hdoc. unfold send. destruct (String.eqb _ _).
  { by rewrite Hdoc. }
  destruct (send_received request) as [data keys].
  destruct (send_origin request data w) as [r|[host referrer]] eqn:Horigin.
  { apply send_origin_answer in Horigin
      as [[_ Hbody]|[(_ & (t & ti & te & Hbody) & _)|[-> _]]]; simpl.
    - rewrite Hdoc in Hbody. destruct Hbody as (t & ti & te & ->). done.
    - by rewrite Hbody.
    - done. }
  destruct (send_form _ _ _ w) as [[r|[form email]] w1] eqn:Hform.
  { apply send_form_answer in Hform as [_ Hbody]. rewrite Hdoc in Hbody.
    destruct Hbody as (t & ti & te & Hbody). simpl. by rewrite Hbody. }
  destruct (send_dispatch _ _ _ _ _ _ w1) as [[r|status] w2] eqn:Hdispatch.
  { apply send_dispatch_answer in Hdispatch as (_ & _ & t & d & a & l & Hbody).
    simpl. by rewrite Hbody. }
  simpl. destruct (send_respond_answer request email host referrer status) as [_ Hbody].
  rewrite Hdoc in Hbody. apply Hbody.
Qed.

(** Whatever [send] mails, archives, stores for a confirmation or mints, it
    does for a submission that got past identity, trust and the disabled
    check: for every other request none of these stores changes and no
    captcha verdict is asked for. *)
Theorem send_effects_need_admission email_or_string request w :
  quiet w (send email_or_string request w).2 ∨
  ∃ host referrer form email w1,
    reaches_admission email_or_string request w host referrer form email w1.
Proof.
  unfold send. destruct (String.eqb _ _) eqn:Hmethod.
  { left. destruct (req_wants_json request); apply quiet_refl. }
  destruct (send_received request) as [data keys] eqn:Hreceived.
  destruct (send_origin request data w) as [r|[host referrer]] eqn:Horigin.
  { left. apply quiet_refl. }
  destruct (send_form _ _ _ w) as [[r|[form email]] w1] eqn:Hform.
  { left. simpl. by eapply send_form_quiet. }
  right. exists host, referrer, form, email, w1.
  split; [|done]. split; [by apply String.eqb_neq|]. by rewrite Hreceived.
Qed.

End Answers.

Section RoundTrip.

Context `{Env}.

Lemma needs_captcha_verified request form : needs_captcha request form true = false.
Proof.
  unfold needs_captcha. rewrite orb_true_r. simpl. by destruct (has_feature _ _).
Qed.

(** The identity stage finds the same form again while its row is as it
    was, also for another request and, for a hash-id, from the host stored
    on the form. *)
Lemma send_form_same email_or_string request request' host host' w form email w1 w2 :
  host ≠ EmptyString →
  db_consistent (forms w) → hash_unique (forms w) →
  send_form email_or_string request host w = (inr (form, email), w1) →
  forms w2 = forms w1 →
  form_host form = Some host' →
  (IS_VALID_EMAIL email_or_string = true → host' = host) →
  ∃ e, is_captcha_check e = false ∧
       send_form email_or_string request' host' w2
         = (inr (form, email), with_event e w2).
Proof.
  intros Hhost Hcons Huniq Hform Hw2 Hstored Hmail.
  destruct (send_form_persisted _ _ _ _ _ _ _ Hhost Hcons Huniq Hform)
    as (pk & Hid & Hrow & Hrest & [b Hset] & Hdisabled & Hpath).
  rewrite <- Hw2 in Hrow. unfold send_form.
  destruct (IS_VALID_EMAIL email_or_string); cbn [negb]; cbv iota.
  - destruct Hpath as (-> & Hhash & Hothers). rewrite (Hmail eq_refl).
    unfold Form_query_by_hash.
    rewrite (query_by_hash_found _ (forms w2) pk form); [|done|done|].
    + unfold assign_ajax. rewrite Hset, Hdisabled. by eexists (Query_hash _).
    + intros pk' form' Hne Hrow'. rewrite Hw2, Hrest in Hrow' by done.
      by eapply Hothers.
  - destruct Hpath as (-> & Hdecode & fhost & Hfhost & Hnonempty & _).
    assert (fhost = host') as -> by congruence.
    unfold Form_get_with_hashid. rewrite Hdecode. simpl. rewrite Hrow.
    unfold assign_ajax. rewrite Hset, Hdisabled, Hfhost.
    destruct host' as [|a host']; [done|]. rewrite different_host_same.
    by eexists (Query_hashid _).
Qed.

(** A request from which a field was received had a body that could be
    read. *)
Lemma send_received_readable request key value :
  (send_received request).1 !! key = Some value → send_unreadable request = false.
Proof.
  unfold send_received, send_unreadable.
  destruct (req_form request) as [|field fields]; [|done].
  by destruct (req_json request).
Qed.

(** The captcha round trip.  A submission that is challenged gets a page
    with a host nonce; a later POST to the same target that carries that
    nonce and passes the captcha is not challenged again and not checked
    against its own referrer header: it is handed to the Delivery Engine
    for the same form, with the host stored on the form and the referrer
    header of the first request. *)
Theorem send_captcha_round_trip email_or_string first second w host referrer form
    email w1 :
  db_consistent (forms w) → hash_unique (forms w) →
  reaches_admission email_or_string first w host referrer form email w1 →
  form_confirmed form = true →
  (IS_VALID_EMAIL email_or_string = true → form_host form = Some host) →
  needs_captcha first form (verify_captcha (send_received first).1 first) = true →
  ∃ nonce fhost,
    (∃ template lang,
       body (send email_or_string first w).1
         = CaptchaPage template (<["_host_nonce" := nonce]> (send_received first).1)
             (send_received first).2 (urljoin API_ROOT email_or_string) lang) ∧
    form_host form = Some fhost ∧
    (req_method second ≠ "GET" →
     (send_received second).1 !! "_host_nonce" = Some nonce →
     verify_captcha (send_received second).1 second = true →
     ∃ w2,
       send email_or_string second (send email_or_string first w).2
         = (let '(status, w3) :=
              Form_send form (send_received second).1 (send_received second).2
                (req_referrer first) w2 in
            (send_respond second email fhost (req_referrer first) status, w3))).
Proof.
  intros Hcons Huniq Hreach Hconfirmed Hmail Hneeds.
  pose proof (send_late _ _ _ _ _ _ _ _ Hreach) as Hsend.
  destruct Hreach as [[Hpost Horigin] Hform].
  assert (host ≠ EmptyString) as Hhost by by eapply send_origin_nonempty.
  destruct (send_dispatch_challenge email_or_string first (send_received first).1
              (send_received first).2 referrer form w1 Hconfirmed Hneeds)
    as (template & lang & Hchallenge).
  rewrite Hchallenge in Hsend.
  assert (∃ fhost, form_host form = Some fhost ∧ fhost ≠ EmptyString ∧
                   (IS_VALID_EMAIL email_or_string = true → fhost = host))
    as (fhost & Hstored & Hnonempty & Hsame).
  { destruct (send_form_persisted _ _ _ _ _ _ _ Hhost Hcons Huniq Hform)
      as (pk & _ & _ & _ & _ & _ & Hpath).
    destruct (IS_VALID_EMAIL email_or_string).
    - exists host. by rewrite Hmail.
    - destruct Hpath as (_ & _ & fhost & Hfhost & Hne & _). by exists fhost. }
  exists (new_nonce (minted w1)), fhost. rewrite Hsend. simpl.
  split; [by eexists _, _|]. split; [done|].
  intros Hpost2 Hnonce Hverified.
  set (w2 := with_hostname _ _ _).
  destruct (send_form_same email_or_string first second host fhost w form email
              w1 w2 Hhost Hcons Huniq Hform eq_refl Hstored Hsame)
    as (e & _ & Hform2).
  exists (with_event Captcha_check (with_event e w2)).
  pose proof (send_received_readable _ _ _ Hnonce) as Hread.
  unfold send. apply String.eqb_neq in Hpost2. rewrite Hpost2.
  destruct (send_received second) as [data2 keys2]. simpl in Hnonce, Hverified.
  assert (send_origin second data2 w2 = inr (fhost, req_referrer first)) as ->.
  { unfold send_origin, get_temp_hostname. rewrite Hread, Hnonce. subst w2. simpl.
    rewrite lookup_insert_eq, Hstored. by destruct fhost. }
  rewrite Hform2. unfold send_dispatch.
  rewrite Hconfirmed, Hverified, needs_captcha_verified. simpl.
  by destruct (Form_send _ _ _ _ _).
Qed.

End RoundTrip.

Section Unsubscribe.

Context `{Env}.

(** A browser that asks for the unsubscribe mail of a form that does not
    exist makes the view raise on the access to the id of None; nothing
    is mailed and no store changes. *)
Theorem request_unconfirm_form_missing form_pk request w :
  Py.truthy (req_browser request) = true →
  forms w !! form_pk = None →
  ∃ w', request_unconfirm_form form_pk request w = (Raised (AttributeError "id"), w') ∧
        stores w' = stores w.
Proof.
  intros Hbrowser Hrow. unfold request_unconfirm_form, Form_query_get.
  rewrite Hbrowser, Hrow. simpl. by eexists.
Qed.

(** The unconfirm view for an id without a row ends on the access to a
    method of None; no store changes. *)
Theorem unconfirm_form_missing form_pk digest request w :
  forms w !! form_pk = None →
  ∃ w', unconfirm_form form_pk digest request w
          = (Reply_failed (NoneAttribute "unconfirm_with_digest"), w') ∧
        stores w' = stores w.
Proof.
  intros Hrow. unfold unconfirm_form, Form_query_get. rewrite Hrow. by eexists.
Qed.

(** A digest that is not the form's own changes nothing: no row, no marker;
    a GET is answered with status 400 and a POST is aborted with 401. *)
Theorem unconfirm_form_wrong_digest form_pk digest request w form :
  forms w !! form_pk = Some form →
  digest ≠ unconfirm_digest form →
  ∃ reply w', unconfirm_form form_pk digest request w = (reply, w') ∧
    stores w' = stores w ∧
    (req_method request = "GET" →
       ∃ r, reply = Reply_response r ∧ status_code r = 400) ∧
    (req_method request = "POST" → reply = Reply_abort 401).
Proof.
  intros Hrow Hdigest%String.eqb_neq.
  unfold unconfirm_form, Form_query_get, Form_unconfirm_with_digest.
  rewrite Hrow, Hdigest. simpl.
  destruct (String.eqb (req_method request) "GET") eqn:Hget.
  - eexists _, _. split; [done|]. split; [done|]. split; [eauto|].
    apply String.eqb_eq in Hget. rewrite Hget. discriminate.
  - destruct (String.eqb (req_method request) "POST") eqn:Hpost;
      eexists _, _; (split; [done|]); (split; [done|]);
      split; intros Hm; rewrite Hm in *; done.
Qed.

Lemma unconfirm_with_own_digest form w pk :
  form_id form = Some pk →
  Form_unconfirm_with_digest form (unconfirm_digest form) w
    = (true, set_confirmed false form,
       with_forms (<[pk := set_confirmed false form]> (forms w)) w).
Proof.
  intros Hid. unfold Form_unconfirm_with_digest, DB_commit.
  rewrite String.eqb_refl. simpl. by rewrite Hid.
Qed.

Lemma unconfirm_form_get_run form_pk request w form :
  req_method request = "GET" →
  forms w !! form_pk = Some form → form_id form = Some form_pk →
  let w' := with_unconfirming (Some (form_email form))
              (with_forms (<[form_pk := set_confirmed false form]> (forms w))
                 (with_event (Query_get form_pk) w)) in
  unconfirm_form form_pk (unconfirm_digest form) request w
    = (Reply_unconfirm_page
         (Form_query_confirmed_by_email (form_email form) w')
         (set_confirmed false form), w').
Proof.
  intros Hget Hrow Hid. unfold unconfirm_form, Form_query_get.
  rewrite Hrow, (unconfirm_with_own_digest _ _ form_pk Hid), Hget. done.
Qed.

(** Following the unconfirm link (GET with the form's own digest) switches
    [confirmed] off for that form and no other, records the form's email as
    the session marker, mails nothing, and lists exactly the other rows
    that are confirmed and belong to the same email. *)
Theorem unconfirm_form_get form_pk request w form :
  req_method request = "GET" →
  forms w !! form_pk = Some form → form_id form = Some form_pk →
  ∃ other_forms w',
    unconfirm_form form_pk (unconfirm_digest form) request w
      = (Reply_unconfirm_page other_forms (set_confirmed false form), w') ∧
    forms w' = <[form_pk := set_confirmed false form]> (forms w) ∧
    unconfirming w' = Some (form_email form) ∧
    outbox w' = outbox w ∧
    ∀ other, other ∈ other_forms ↔
      ∃ pk, pk ≠ form_pk ∧ forms w !! pk = Some other ∧
            form_confirmed other = true ∧ form_email other = form_email form.
Proof.
  intros Hget Hrow Hid.
  rewrite (unconfirm_form_get_run form_pk request w form Hget Hrow Hid).
  eexists _, _. split; [done|]. split; [done|]. split; [done|]. split; [done|].
  intros other. unfold Form_query_confirmed_by_email. simpl.
  rewrite list_elem_of_fmap. split.
  - intros ([pk other'] & -> & Hin). simpl.
    apply elem_of_map_to_list, map_lookup_filter_Some in Hin as [Hin [Hc He]].
    simpl in *. exists pk. destruct (decide (pk = form_pk)) as [->|Hne].
    + rewrite lookup_insert_eq in Hin. by injection Hin as <-.
    + by rewrite lookup_insert_ne in Hin.
  - intros (pk & Hne & Hother & Hc & He). exists (pk, other). split; [done|].
    apply elem_of_map_to_list, map_lookup_filter_Some. simpl.
    by rewrite lookup_insert_ne.
Qed.

(** The one-click unsubscribe (POST with the form's own digest) switches
    [confirmed] off for that form and answers 200 with an empty body, but
    leaves the session marker as it was: it opens no bulk opt-out. *)
Theorem unconfirm_form_post form_pk request w form :
  req_method request = "POST" →
  forms w !! form_pk = Some form → form_id form = Some form_pk →
  ∃ w',
    unconfirm_form form_pk (unconfirm_digest form) request w
      = (Reply_response (Response_mk 200 (Text EmptyString)), w') ∧
    forms w' = <[form_pk := set_confirmed false form]> (forms w) ∧
    unconfirming w' = unconfirming w ∧ outbox w' = outbox w.
Proof.
  intros Hpost Hrow Hid. unfold unconfirm_form, Form_query_get.
  rewrite Hrow, (unconfirm_with_own_digest _ _ form_pk Hid), Hpost. simpl.
  by eexists.
Qed.

(** From the unconfirm link to the bulk opt-out.  After a GET with the
    form's own digest, a bulk opt-out for ids that all have rows is let
    through; afterwards the form itself and every supplied form of the same
    email are unconfirmed, and every form of another email is as it was
    before the two requests. *)
Theorem unconfirm_form_then_multiple form_pk request bulk w form :
  req_method request = "GET" →
  forms w !! form_pk = Some form → form_id form = Some form_pk →
  form_email form ≠ EmptyString →
  (∀ pk, pk ∈ req_form_ids bulk → is_Some (forms w !! pk)) →
  ∃ r w2,
    unconfirm_multiple bulk
      (unconfirm_form form_pk (unconfirm_digest form) request w).2
      = (Responded r, w2) ∧
    status_code r = 200 ∧
    forms w2 !! form_pk = Some (set_confirmed false form) ∧
    (∀ pk other, pk ∈ req_form_ids bulk → forms w !! pk = Some other →
       form_email other = form_email form →
       forms w2 !! pk = Some (set_confirmed false other)) ∧
    (∀ pk other, forms w !! pk = Some other →
       form_email other ≠ form_email form → forms w2 !! pk = Some other).
Proof.
  intros Hget Hrow Hid Hmail Hall.
  rewrite (unconfirm_form_get_run form_pk request w form Hget Hrow Hid).
  cbv zeta. cbn [snd].
  set (w1 := with_unconfirming _ _).
  assert (forms w1 = <[form_pk := set_confirmed false form]> (forms w)) as Hforms by done.
  assert (unconfirming w1 = Some (form_email form)) as Hmarker by done.
  clearbody w1.
  unfold unconfirm_multiple. rewrite Hmarker.
  destruct (form_email form) as [|a email] eqn:Hemail; [done|].
  destruct (unconfirm_loop_present (String a email) (req_form_ids bulk)
              (forms w1) w1) as (session' & w2 & -> & Hrows).
  { intros pk Hin. rewrite Hforms. destruct (decide (form_pk = pk)) as [->|Hne].
    - rewrite lookup_insert_eq. eauto.
    - rewrite lookup_insert_ne by done. by apply Hall. }
  eexists _, _. split; [done|]. split; [done|]. simpl.
  assert (∀ b, (if b && String.eqb (form_email (set_confirmed false form))
                              (String a email)
                then set_confirmed false (set_confirmed false form)
                else set_confirmed false form) = set_confirmed false form) as Hoff.
  { intros b. by destruct (b && _). }
  split; [|split].
  - rewrite Hrows, Hforms, lookup_insert_eq. simpl. by rewrite Hoff.
  - intros pk other Hin Hother Hsame. rewrite Hrows, Hforms.
    destruct (decide (form_pk = pk)) as [->|Hne].
    + rewrite lookup_insert_eq. simpl. rewrite Hoff. congruence.
    + rewrite lookup_insert_ne, Hother by done. simpl.
      rewrite bool_decide_eq_true_2 by done. simpl.
      by rewrite Hsame, String.eqb_refl.
  - intros pk other Hother Hdiff. rewrite Hrows, Hforms.
    destruct (decide (form_pk = pk)) as [->|Hne]; [congruence|].
    rewrite lookup_insert_ne, Hother by done. simpl.
    apply String.eqb_neq in Hdiff. by rewrite Hdiff, andb_false_r.
Qed.

(** From the unsubscribe mail to the unconfirm link.  For a browser and a
    form that exists, [request_unconfirm_form] sends one mail, to the
    form's own address, whose link carries the form's id and digest; a GET
    of [unconfirm_form] with that id and digest then unconfirms the form. *)
Theorem request_unconfirm_form_link form_pk request click w form :
  Py.truthy (req_browser request) = true →
  forms w !! form_pk = Some form → form_id form = Some form_pk →
  req_method click = "GET" →
  ∃ w1 m digest,
    (request_unconfirm_form form_pk request w).2 = w1 ∧
    outbox w1 = (outbox w ++ [m])%list ∧ mail_to m = form_email form ∧
    mail_body m
      = UnsubscribeMail
          (url_for "unconfirm_form"
             [("form_id", pretty form_pk); ("digest", digest)])
          (form_email form) (form_host form) ∧
    ∃ other_forms w2,
      unconfirm_form form_pk digest click w1
        = (Reply_unconfirm_page other_forms (set_confirmed false form), w2) ∧
      forms w2 !! form_pk = Some (set_confirmed false form).
Proof.
  intros Hbrowser Hrow Hid Hget.
  unfold request_unconfirm_form, Form_query_get. rewrite Hbrowser, Hrow. simpl.
  eexists _, _, (unconfirm_digest form). split; [done|]. simpl.
  split; [done|]. split; [done|]. split; [by rewrite Hid|].
  rewrite unconfirm_form_get_run by done.
  eexists _, _. split; [done|]. simpl. apply lookup_insert_eq.
Qed.

End Unsubscribe.

Lemma append_assoc (a b c : string) : (a +:+ b) +:+ c = a +:+ (b +:+ c).
Proof.
  induction a as [|x a IH]; [done|].
  change (String x ((a +:+ b) +:+ c) = String x (a +:+ (b +:+ c))).
  by rewrite IH.
Qed.

Section Provider.

Context `{Env} `{Sendgrid}.

Lemma resend_sent_again form w :
  ∃ pk w',
    Form_send_confirmation_bare (set_confirm_sent false form) w
      = (STATUS_CONFIRMATION_SENT, w') ∧
    forms w' = <[pk := set_id (Some pk) (set_confirm_sent true form)]> (forms w) ∧
    (∀ pk0, form_id form = Some pk0 → pk = pk0) ∧
    (∃ m, outbox w' = (outbox w ++ [m])%list ∧ mail_to m = form_email form ∧
          ∃ link, mail_body m = ConfirmationMail link) ∧
    hostnames w' = hostnames w ∧ first_submissions w' = first_submissions w ∧
    submissions w' = submissions w ∧ unconfirming w' = unconfirming w ∧
    trace w' = trace w.
Proof.
  unfold Form_send_confirmation_bare. cbn [form_confirm_sent set_confirm_sent].
  destruct (DB_commit _ _) as [form' w1] eqn:Hcommit.
  apply DB_commit_spec in Hcommit as (pk & -> & -> & Hpk). simpl in Hpk.
  exists pk. eexists. split; [done|]. simpl. split; [done|]. split.
  { intros pk0 Hid. rewrite Hid in Hpk. congruence. }
  split; [|done]. eexists. split; [done|]. split; [done|]. by eexists.
Qed.

(** An address on the provider's bounce list is not mailed again.  With the
    captcha passed and a bounce with a reason listed for the address, the
    resend answers 200 and passes the provider's reason on; it looks up no
    form, sends no mail and changes no store, whether or not the request
    names a host. *)
Theorem resend_confirmation_bounced email request w calls reason :
  verify_captcha (list_to_map (req_form request)) request = true →
  bounce_reason email = Some reason →
  ∃ r w',
    resend_confirmation email request w calls
      = (Reply_response r, w', (calls ++ [Bounces_get email])%list) ∧
    status_code r = 200 ∧ stores w' = stores w ∧
    trace w' = (trace w ++ [Captcha_check])%list ∧
    match body r with
    | Json obj => ("reason", reason) ∈ obj
    | Page _ _ text => ∃ a b, text = a +:+ reason +:+ b
    | _ => False
    end.
Proof.
  intros Hcaptcha Hbounce. unfold resend_confirmation.
  rewrite Hcaptcha, Hbounce.
  destruct (req_wants_json request); eexists _, _; (split; [done|]);
    (split; [done|]); (split; [done|]); (split; [done|]); simpl.
  - apply list_elem_of_In. simpl. tauto.
  - eexists ("We encountered an error when trying to deliver the confirmation message to <b>" +:+ email +:+ "</b> at the first time we tried. For spam reasons, we will not try again until we are sure the problem is fixed. Here's the reason:</p><p><center><i>"), _.
    by rewrite !append_assoc.
Qed.

(** What a resend can do, whatever the request.  It never touches the host
    nonces, the pending payloads, the archive or the session marker; it
    asks the provider at most for the bounces of the address in the URL;
    and if the outbox changed, then the captcha had passed, the provider
    listed no bounce with a reason, and the one new message is a
    confirmation mail to the address of a stored form whose hash is that of
    the address and the host named in the request. *)
Theorem resend_confirmation_effects email request w calls :
  let '(reply, w', calls') := resend_confirmation email request w calls in
  hostnames w' = hostnames w ∧ first_submissions w' = first_submissions w ∧
  submissions w' = submissions w ∧ unconfirming w' = unconfirming w ∧
  (calls' = calls ∨ calls' = (calls ++ [Bounces_get email])%list) ∧
  (stores w' = stores w ∨
   verify_captcha (list_to_map (req_form request)) request = true ∧
   bounce_reason email = None ∧
   ∃ host pk form m,
     form_get "host" request = Some host ∧
     forms w !! pk = Some form ∧ form_hash form = Some (HASH email host) ∧
     outbox w' = (outbox w ++ [m])%list ∧ mail_to m = form_email form ∧
     ∃ link, mail_body m = ConfirmationMail link).
Proof.
  unfold resend_confirmation.
  destruct (verify_captcha _ _) eqn:Hcaptcha; [|by repeat split; auto].
  destruct (bounce_reason email) as [reason|] eqn:Hbounce.
  { destruct (req_wants_json request); by repeat split; auto. }
  destruct (form_get "host" request) as [host|] eqn:Hhost; [|by repeat split; auto].
  unfold Form_query_by_hash.
  destruct (snd <$> head _) as [form|] eqn:Hform.
  2: { destruct (req_wants_json request); by repeat split; auto. }
  apply query_by_hash_Some in Hform as (pk & Hrow & Hhash). simpl in Hrow.
  destruct (resend_sent_again form
              (with_event (Query_hash (HASH email host)) (with_event Captcha_check w)))
    as (pk' & w' & -> & _ & _ & (m & Hout & Hto & Hbody) & Hh & Hf & Hs & Hu & _).
  assert (∀ reply : Reply,
    hostnames w' = hostnames w ∧ first_submissions w' = first_submissions w ∧
    submissions w' = submissions w ∧ unconfirming w' = unconfirming w ∧
    ((calls ++ [Bounces_get email])%list = calls ∨
     (calls ++ [Bounces_get email])%list = (calls ++ [Bounces_get email])%list) ∧
    (stores w' = stores w ∨
     true = true ∧ @None string = None ∧
     ∃ host0 pk0 form0 m,
       Some host = Some host0 ∧
       forms w !! pk0 = Some form0 ∧ form_hash form0 = Some (HASH email host0) ∧
       outbox w' = (outbox w ++ [m])%list ∧ mail_to m = form_email form0 ∧
       ∃ link, mail_body m = ConfirmationMail link)) as Hgoal.
  { intros _. repeat split; try done; [by right|]. right.
    split; [done|]. split; [done|]. exists host, pk, form, m.
    split; [done|]. split; [done|]. split; [done|]. split; [exact Hout|].
    split; [exact Hto|exact Hbody]. }
  destruct (req_wants_json request); apply Hgoal; exact (Reply_abort 0).
Qed.

Lemma resend_confirmation_found email request w calls host pk form :
  verify_captcha (list_to_map (req_form request)) request = true →
  bounce_reason email = None →
  form_get "host" request = Some host →
  (Form_query_by_hash (HASH email host) w).1 = Some form →
  form_id form = Some pk →
  ∃ w',
    resend_confirmation email request w calls
      = (Reply_response
           (if req_wants_json request
            then jsonify [("success", "confirmation email sent")]
            else Response_mk 200 (ConfirmationSentPage email host false)),
         w', (calls ++ [Bounces_get email])%list) ∧
    (∃ m, outbox w' = (outbox w ++ [m])%list ∧ mail_to m = form_email form ∧
          ∃ link, mail_body m = ConfirmationMail link) ∧
    forms w' = <[pk := set_confirm_sent true form]> (forms w).
Proof.
  intros Hcaptcha Hbounce Hhost Hform Hid. unfold resend_confirmation.
  rewrite Hcaptcha, Hbounce, Hhost.
  unfold Form_query_by_hash in *. simpl in Hform.
  cbn [forms with_event]. rewrite Hform.
  destruct (resend_sent_again form
              (with_event (Query_hash (HASH email host)) (with_event Captcha_check w)))
    as (pk' & w' & -> & Hforms & Hpk & Hout & _).
  rewrite (Hpk pk Hid), set_id_same in Hforms by done.
  exists w'. by destruct (req_wants_json request).
Qed.


(** From a first submission to the resend.  A submission to an email
    target that reaches the admission stage with a form that is neither
    confirmed nor has had a confirmation sent mails the confirmation; a
    resend for the lower-cased address and the same host that passes the
    captcha, with no bounce listed, then finds that form and mails a
    confirmation to the same address a second time, and leaves the Form
    table as the submission left it. *)
Theorem send_then_resend email_or_string request again w calls host referrer
    form email w1 :
  reaches_admission email_or_string request w host referrer form email w1 →
  IS_VALID_EMAIL email_or_string = true →
  form_confirmed form = false → form_confirm_sent form = false →
  db_consistent (forms w) → hash_unique (forms w) →
  verify_captcha (list_to_map (req_form again)) again = true →
  bounce_reason email = None →
  form_get "host" again = Some host →
  ∃ first w2 r w3 second,
    (send email_or_string request w).2 = w2 ∧
    outbox w2 = (outbox w ++ [first])%list ∧ mail_to first = form_email form ∧
    resend_confirmation email again w2 calls
      = (Reply_response r, w3, (calls ++ [Bounces_get email])%list) ∧
    status_code r = 200 ∧
    outbox w3 = (outbox w2 ++ [second])%list ∧
    mail_to second = mail_to first ∧
    (∃ link, mail_body second = ConfirmationMail link) ∧
    forms w3 = forms w2.
Proof.
  intros Hreach Hvalid Hunconfirmed Hsent Hcons Huniq Hcaptcha Hbounce Hfield.
  pose proof (send_late _ _ _ _ _ _ _ _ Hreach) as Hsend.
  destruct Hreach as [[Hpost Horigin] Hform].
  pose proof (send_form_quiet _ _ _ _ _ _ Hform) as (Ho & _).
  assert (host ≠ EmptyString) as Hhost by by eapply send_origin_nonempty.
  destruct (send_form_persisted _ _ _ _ _ _ _ Hhost Hcons Huniq Hform)
    as (pk & Hid & Hrow & Hrest & _ & _ & Hpath).
  rewrite Hvalid in Hpath. destruct Hpath as (-> & Hhash & Hothers).
  unfold send_dispatch in Hsend. rewrite Hunconfirmed in Hsend.
  unfold Form_send_confirmation, DB_commit in Hsend.
  rewrite Hsent in Hsend. cbn [form_id set_confirm_sent] in Hsend.
  rewrite Hid in Hsend. cbn [form_id set_confirm_sent] in Hsend.
  rewrite Hid in Hsend. rewrite Hsend. clear Hsend. cbn [snd].
  set (w2 := with_first_submission _ _ _).
  assert (forms w2 = <[pk := set_confirm_sent true form]> (forms w1)) as Hforms2
    by done.
  assert ((Form_query_by_hash (HASH (Py.lower email_or_string) host) w2).1
            = Some (set_confirm_sent true form)) as Hquery.
  { unfold Form_query_by_hash. cbn [fst]. rewrite Hforms2.
    apply (query_by_hash_found _ _ pk).
    - apply lookup_insert_eq.
    - done.
    - intros pk' form' Hne. rewrite lookup_insert_ne by done.
      rewrite Hrest by done. by apply Hothers. }
  destruct (resend_confirmation_found (Py.lower email_or_string) again w2 calls
              host pk (set_confirm_sent true form))
    as (w3 & Hrun & (second & Hout3 & Hto3 & Hbody3) & Hforms3); try done.
  eexists _, w2, _, w3, second. split; [done|].
  split; [by rewrite <- Ho|]. split; [done|]. split; [exact Hrun|].
  split; [by destruct (req_wants_json again)|].
  split; [exact Hout3|]. split; [exact Hto3|]. split; [exact Hbody3|].
  rewrite Hforms3, Hforms2. apply insert_id. apply lookup_insert_eq.
Qed.

(** What unblocking can do, whatever the request: no store changes, and
    the provider is asked at most once, to delete the bounces of the
    address in the URL, and only for a POST that passed the captcha. *)
Theorem unblock_email_effects email request w calls :
  let '(reply, w', calls') := unblock_email email request w calls in
  stores w' = stores w ∧
  (calls' = calls ∨
   calls' = (calls ++ [Bounces_delete email])%list ∧
   req_method request = "POST" ∧
   verify_captcha (list_to_map (req_form request)) request = true).
Proof.
  unfold unblock_email.
  destruct (String.eqb (req_method request) "POST") eqn:Hpost.
  - apply String.eqb_eq in Hpost.
    destruct (verify_captcha _ _) eqn:Hcaptcha; [|by auto].
    destruct (bounces_delete email) as [[] json]; [|by auto].
    destruct (json !! "message") as [message|]; [|by auto].
    destruct (String.eqb message "success"); by auto.
  - destruct (String.eqb (req_method request) "GET"); by auto.
Qed.

(** A POST that passed the captcha, by what the provider answers.  When
    the answer is ok and its message is "success", the success page is
    rendered; when the answer is not ok, or is ok with another message, the
    error page is rendered; all of these with status 200.  When the answer
    is ok and holds no message at all, the view ends on the KeyError of the
    lookup and renders nothing.  In each case the provider was asked once,
    and only to delete the bounces of the address in the URL. *)
Theorem unblock_email_post email request w calls :
  req_method request = "POST" →
  verify_captcha (list_to_map (req_form request)) request = true →
  ∃ reply w',
    unblock_email email request w calls
      = (reply, w', (calls ++ [Bounces_delete email])%list) ∧
    match bounces_delete email with
    | (true, json) =>
        match json !! "message" with
        | None => reply = Reply_failed (KeyMissing "message")
        | Some message =>
            ∃ title text,
              reply = Reply_response
                        (Response_mk 200
                           (Page (if String.eqb message "success"
                                  then "info.html" else "error.html") title text))
        end
    | (false, _) =>
        ∃ title text,
          reply = Reply_response (Response_mk 200 (Page "error.html" title text))
    end.
Proof.
  intros Hpost Hcaptcha. unfold unblock_email.
  rewrite Hpost, Hcaptcha. simpl.
  destruct (bounces_delete email) as [[] json]; [|by eexists _, _; eauto].
  destruct (json !! "message") as [message|]; [|by eexists _, _].
  destruct (String.eqb message "success"); by eexists _, _; eauto.
Qed.

End Provider.

Section Exports.

Context `{Env} `{Accounts}.

Lemma csv_rows header (subs : list Data) :
  Forall (λ sub : Data, dom sub ⊆ (list_to_set header : gset string)) subs →
  mapM (csv_row header) subs
    = Some ((λ sub : Data, (λ field, default EmptyString (sub !! field)) <$> header)
              <$> subs).
Proof.
  induction 1 as [|sub subs Hsub _ IH]; [done|].
  simpl. rewrite IH. unfold csv_row at 1.
  by rewrite bool_decide_eq_true_2.
Qed.

(** Who gets a file.  The export changes no store; it hands out a file
    only to a logged-in account that has the "dashboard" capability, for a
    hash-id that stands for an existing form which that account controls,
    and only as JSON or CSV; and no form is looked up for an account
    without the capability. *)
Theorem export_submissions_guard hashid format current_user w :
  let '(reply, w') := export_submissions hashid format current_user w in
  stores w' = stores w ∧
  (is_file reply = true →
   ∃ user pk form,
     current_user = Some user ∧ "dashboard" ∈ user_features user ∧
     hashid_decode hashid = Some pk ∧ forms w !! pk = Some form ∧
     controlled_by form user = true ∧
     (format = Some "json" ∨ format = Some "csv")) ∧
  (trace w' ≠ trace w →
   ∃ user, current_user = Some user ∧ "dashboard" ∈ user_features user).
Proof.
  unfold export_submissions. destruct current_user as [user|]; [|done].
  unfold user_has_feature. destruct (bool_decide _) eqn:Hfeature; [|done].
  apply bool_decide_eq_true in Hfeature. cbn [negb].
  assert (∃ user0, Some user = Some user0 ∧ "dashboard" ∈ user_features user0)
    as Huser by eauto.
  unfold Form_get_with_hashid.
  destruct (hashid_decode hashid) as [pk|] eqn:Hpk; cbn [mbind option_bind];
    [|done].
  destruct (forms w !! pk) as [form|] eqn:Hrow; [|done].
  destruct (controlled_by form user) eqn:Hctl; cbn [negb]; [|done].
  destruct (submissions_with_fields _ _) as [subs fields].
  destruct (bool_decide (format = Some "json")) eqn:Hjson.
  { apply bool_decide_eq_true in Hjson.
    split; [done|]. split; [|done]. intros _. eexists _, _, _. eauto 10. }
  destruct (bool_decide (format = Some "csv")) eqn:Hcsv; [|done].
  apply bool_decide_eq_true in Hcsv.
  destruct (mapM _ _); [|done].
  split; [done|]. split; [|done]. intros _. eexists _, _, _. eauto 10.
Qed.

(** The CSV export.  For an account with the capability that controls the
    form, and an archive whose entries use no key outside the columns, the
    file has the header "id" followed by the archive's fields and one line
    per entry, in the archive's order; every line has one cell per column,
    holding the entry's value for that column, or nothing where the entry
    has none. *)
Theorem export_submissions_csv hashid user w pk form subs fields :
  "dashboard" ∈ user_features user →
  hashid_decode hashid = Some pk → forms w !! pk = Some form →
  controlled_by form user = true →
  submissions_with_fields form (with_event (Query_hashid hashid) w) = (subs, fields) →
  Forall (λ sub : Data, dom sub ⊆ (list_to_set ("id" :: fields) : gset string)) subs →
  ∃ rows w',
    export_submissions hashid (Some "csv") (Some user) w
      = (Reply_csv_file (export_filename hashid "csv") ("id" :: fields) rows, w') ∧
    length rows = length subs ∧
    ∀ i sub, subs !! i = Some sub →
      ∃ row, rows !! i = Some row ∧ length row = S (length fields) ∧
        ∀ j field, ("id" :: fields) !! j = Some field →
          row !! j = Some (default EmptyString (sub !! field)).
Proof.
  intros Hfeature Hpk Hrow Hctl Harchive Hkeys. unfold export_submissions.
  unfold user_has_feature. rewrite bool_decide_eq_true_2 by done. cbn [negb].
  unfold Form_get_with_hashid. rewrite Hpk. cbn [mbind option_bind].
  rewrite Hrow, Hctl. cbn [negb]. rewrite Harchive.
  rewrite bool_decide_eq_false_2 by done.
  rewrite bool_decide_eq_true_2 by done.
  rewrite (csv_rows _ _ Hkeys).
  eexists _, _. split; [done|]. split; [by rewrite length_fmap|].
  intros i sub Hsub. eexists. split.
  { rewrite list_lookup_fmap, Hsub. done. }
  split; [by rewrite length_fmap|].
  intros j field Hfield. by rewrite list_lookup_fmap, Hfield.
Qed.

(** An export in a format that is neither "json" nor "csv", or with the
    format left out, gives the caller who is entitled to the archive no
    response at all: the view runs off its end. *)
Theorem export_submissions_other_format hashid format user w pk form :
  "dashboard" ∈ user_features user →
  hashid_decode hashid = Some pk → forms w !! pk = Some form →
  controlled_by form user = true →
  format ≠ Some "json" → format ≠ Some "csv" →
  ∃ w', export_submissions hashid format (Some user) w
          = (Reply_failed ReturnedNone, w') ∧ stores w' = stores w.
Proof.
  intros Hfeature Hpk Hrow Hctl Hjson Hcsv. unfold export_submissions.
  unfold user_has_feature. rewrite bool_decide_eq_true_2 by done. cbn [negb].
  unfold Form_get_with_hashid. rewrite Hpk. cbn [mbind option_bind].
  rewrite Hrow, Hctl. cbn [negb].
  destruct (submissions_with_fields _ _) as [subs fields].
  rewrite !bool_decide_eq_false_2 by done. by eexists.
Qed.

End Exports.

(** * The properties on concrete requests *)

Import Sample.

(** C1, against the claim as stated: a sitewide form confirmed for
    example.com turns a submission from blog.example.com away with status
    403, since blog.example.com does not begin with example.com. *)
Lemma sitewide_subdomain_rejected :
  (send "xkdeqaj" (post "https://blog.example.com" jo) sitewide_world).1
    = host_rejection (post "https://blog.example.com" jo)
        "blog.example.com" "example.com" ∧
  status_code
    (send "xkdeqaj" (post "https://blog.example.com" jo) sitewide_world).1 = 403.
Proof. split; vm_compute; reflexivity. Qed.

(** The Trust Rule on the sitewide form of example.com, for a submission
    from www.example.com. *)
Lemma send_trust_rule_witness :
  trust_rule true "example.com" "www.example.com" ∧
  send_form "xkdeqaj" (post "https://www.example.com" jo) "www.example.com"
    sitewide_world
  = (inr (dashboard_form "example.com" true, "owner@example.com"),
     with_event (Query_hashid "xkdeqaj") sitewide_world).
Proof.
  assert (trust_rule true "example.com" "www.example.com") as Hrule
    by (vm_compute; reflexivity).
  split; [exact Hrule|].
  apply (send_trust_rule "xkdeqaj" (post "https://www.example.com" jo)
           sitewide_world "www.example.com" (Some "https://www.example.com")
           (dashboard_form "example.com" true) "example.com");
    [split; [discriminate|vm_compute; reflexivity]
    |vm_compute; reflexivity..|discriminate|exact Hrule].
Defined.

(** The specification's example: {name: Jo} sent to owner@example.com from
    https://example.com/contact, twice in a row. *)
Lemma send_unconfirmed_form_witness :
  ∃ w2 pk m,
    send "owner@example.com" (post "https://example.com/contact" jo) (world ∅)
      = (Response_mk 200 (ConfirmationSentPage "owner@example.com" "example.com" false),
         w2) ∧
    first_submissions w2 !! pk = Some ({["name" := "Jo"]} : Data) ∧
    outbox w2 = [m] ∧ mail_to m = "owner@example.com" ∧
    ∃ w3,
      send "owner@example.com" (post "https://example.com/contact" jo) w2
        = (Response_mk 200 (ConfirmationSentPage "owner@example.com" "example.com" true),
           w3) ∧
      outbox w3 = outbox w2.
Proof.
  destruct (send_unconfirmed_form "owner@example.com"
              (post "https://example.com/contact" jo) (world ∅)
              "example.com" (Some "https://example.com/contact")
              new_form "owner@example.com"
              (with_event (Query_hash "owner@example.com|example.com")
                 (world (<[0 := new_form]> ∅))))
    as [_ Hfirst].
  - split; [split; [discriminate|vm_compute; reflexivity]|vm_compute; reflexivity].
  - reflexivity.
  - destruct (Hfirst eq_refl) as (w2 & pk & m & Hsend & Hstored & _ & Hout & Hto & _ & Hsecond).
    destruct Hsecond as (w3 & Hsend2 & Hout2 & _).
    + apply map_Forall_empty.
    + apply map_Forall_empty.
    + exists w2, pk, m. split; [exact Hsend|]. split; [exact Hstored|].
      split; [exact Hout|]. split; [exact Hto|].
      exists w3. split; [exact Hsend2|exact Hout2].
Defined.

(** A disabled form, reached by its hash-id. *)
Lemma send_disabled_form_witness :
  resolves_to "xkdeqaj" "example.com" disabled_world disabled_form ∧
  ∃ w', send "xkdeqaj" (post "https://example.com" jo) disabled_world
          = (form_not_active (post "https://example.com" jo), w') ∧
        status_code (form_not_active (post "https://example.com" jo)) = 403 ∧
        quiet disabled_world w'.
Proof.
  assert (resolves_to "xkdeqaj" "example.com" disabled_world disabled_form)
    as Hresolved by (vm_compute; reflexivity).
  split; [exact Hresolved|].
  apply (send_disabled_form "xkdeqaj" (post "https://example.com" jo)
           disabled_world "example.com" (Some "https://example.com") disabled_form);
    [split; [discriminate|vm_compute; reflexivity]|exact Hresolved|reflexivity].
Defined.


(** The action of the challenge need not lie under the API root.  The
    target a:b@example.com is an email address that begins like a URL
    scheme, and [urljoin] gives such a reference back as it is. *)
Lemma challenge_action_of_scheme_target :
  (send "a:b@example.com" (post "https://example.com" jo)
     (world (<[1 := plain_form 1 "a:b@example.com" "example.com"]> ∅))).1
    = Response_mk 200
        (CaptchaPage "forms/captcha.html"
           (<["_host_nonce" := "nonce-0"]> {["name" := "Jo"]}) ["name"]
           "a:b@example.com" None).
Proof. vm_compute. reflexivity. Qed.


(** A first submission to Owner@Example.com from example.com. *)
Lemma send_email_target_witness :
  IS_VALID_EMAIL "Owner@Example.com" = true ∧
  ∃ form w1,
    send_form "Owner@Example.com" (post "https://example.com/contact" jo)
      "example.com" (world ∅) = (inr (form, "owner@example.com"), w1) ∧
    form_confirmed form = false ∧ form_email form = "owner@example.com" ∧
    form_host form = Some "example.com".
Proof.
  split; [reflexivity|].
  destruct (send_email_target "Owner@Example.com"
              (post "https://example.com/contact" jo) (world ∅) "example.com"
              (Some "https://example.com/contact")) as (_ & Hnew & _).
  - split; [discriminate|vm_compute; reflexivity].
  - reflexivity.
  - destruct Hnew as (_ & _ & Hcreated); [vm_compute; reflexivity|].
    destruct Hcreated as (form & w1 & Hform & _ & Hc & _ & He & Hh & _);
      [reflexivity|vm_compute; reflexivity|].
    exists form, w1. split; [exact Hform|]. split; [exact Hc|].
    split; [exact He|exact Hh].
Defined.

(** C6, at a request the claim covers: the marker belongs to
    owner@example.com, form 1 is theirs and form 99 does not exist.  The
    view raises and form 1 is still confirmed afterwards. *)
Lemma unconfirm_multiple_valid_then_missing :
  (unconfirm_multiple (bulk_request [1; 99]) bulk_world).1
    = Raised (AttributeError "email") ∧
  forms (unconfirm_multiple (bulk_request [1; 99]) bulk_world).2 !! 1
    = Some (plain_form 1 "owner@example.com" "example.com") ∧
  form_confirmed (plain_form 1 "owner@example.com" "example.com") = true.
Proof. repeat split; vm_compute; reflexivity. Qed.

(** The bulk opt-out with a form id that has no row. *)
Lemma unconfirm_multiple_missing_id_witness :
  (∃ pk, pk ∈ req_form_ids (bulk_request [1; 99]) ∧ forms bulk_world !! pk = None) ∧
  ∃ w', unconfirm_multiple (bulk_request [1; 99]) bulk_world
          = (Raised (AttributeError "email"), w') ∧
        forms w' = forms bulk_world ∧ stores w' = stores bulk_world.
Proof.
  assert (∃ pk, pk ∈ req_form_ids (bulk_request [1; 99]) ∧
                forms bulk_world !! pk = None) as Hmissing.
  { exists 99. split; [right; left|reflexivity]. }
  split; [exact Hmissing|].
  apply (unconfirm_multiple_missing_id (bulk_request [1; 99]) bulk_world
           "owner@example.com");
    [reflexivity|discriminate|exact Hmissing].
Defined.

(** The bulk opt-out without the marker. *)
Lemma unconfirm_multiple_unauthorized_witness :
  ∃ r, unconfirm_multiple (bulk_request [1; 2]) (world (forms bulk_world))
         = (Responded r, world (forms bulk_world)) ∧
       status_code r = 401.
Proof.
  apply (unconfirm_multiple_unauthorized (bulk_request [1; 2])
           (world (forms bulk_world))).
  reflexivity.
Defined.

(** The bulk opt-out with one form of the marker's owner and one of
    somebody else: the first is unconfirmed, the second is not. *)
Lemma unconfirm_multiple_scoped_witness :
  ∃ r w', unconfirm_multiple (bulk_request [1; 3]) bulk_world = (Responded r, w') ∧
    status_code r = 200 ∧
    forms w' !! 1
      = Some (set_confirmed false (plain_form 1 "owner@example.com" "example.com")) ∧
    forms w' !! 2 = Some (plain_form 2 "owner@example.com" "example.org") ∧
    forms w' !! 3 = Some (plain_form 3 "other@example.net" "example.net").
Proof.
  destruct (unconfirm_multiple_scoped (bulk_request [1; 3]) bulk_world
              "owner@example.com") as (r & w' & Hrun & Hstatus & Hrows).
  - reflexivity.
  - discriminate.
  - intros pk Hin. apply list_elem_of_In in Hin.
    destruct Hin as [<-|[<-|[]]]; eexists; reflexivity.
  - exists r, w'. split; [exact Hrun|]. split; [exact Hstatus|].
    split; [exact (Hrows 1)|]. split; [exact (Hrows 2)|exact (Hrows 3)].
Defined.

(** A JSON caller at a form that has used up its allowance. *)
Lemma send_overlimit_status_witness :
  ∃ r w2, send "xkdeqaj" (post_json "https://example.com" jo) (counted_world 1000)
            = (r, w2) ∧
          r = Response_mk 200 (Json [("error", "form over quota")]) ∧
          outbox w2 = [].
Proof.
  destruct (send_overlimit_status "xkdeqaj" (post_json "https://example.com" jo)
              (counted_world 1000) "example.com" (Some "https://example.com")
              (set_counter 1000 (dashboard_form "example.com" false))
              "owner@example.com"
              (with_event (Query_hashid "xkdeqaj") (counted_world 1000))
              (with_event Captcha_check
                 (with_event (Query_hashid "xkdeqaj") (counted_world 1000))))
    as (r & Hsend & _ & Hjson).
  - split; [split; [discriminate|vm_compute; reflexivity]|vm_compute; reflexivity].
  - vm_compute; reflexivity.
  - eexists r, _. split; [exact Hsend|]. split; [exact (Hjson eq_refl)|reflexivity].
Defined.

(** A JSON caller whose email field is no address. *)
Lemma send_replyto_error_status_witness :
  ∃ r w2, send "xkdeqaj"
            (post_json "https://example.com" [("name", "Jo"); ("email", "jo at home")])
            (counted_world 0) = (r, w2) ∧
          status_code r = 500 ∧ outbox w2 = [].
Proof.
  destruct (send_replyto_error_status "xkdeqaj"
              (post_json "https://example.com" [("name", "Jo"); ("email", "jo at home")])
              (counted_world 0) "example.com" (Some "https://example.com")
              (set_counter 0 (dashboard_form "example.com" false))
              "owner@example.com"
              (with_event (Query_hashid "xkdeqaj") (counted_world 0))
              (with_event Captcha_check
                 (with_event (Query_hashid "xkdeqaj") (counted_world 0)))
              "jo at home" (Some "https://example.com"))
    as (r & Hsend & _ & Hjson).
  - split; [split; [discriminate|vm_compute; reflexivity]|vm_compute; reflexivity].
  - vm_compute; reflexivity.
  - eexists r, _. split; [exact Hsend|]. split; [exact (Hjson eq_refl)|reflexivity].
Defined.

(** A script without a browser User-Agent asks for the unsubscribe mail of
    a form that exists. *)
Lemma request_unconfirm_form_repels_bots_witness :
  request_unconfirm_form 1 (post_json "https://example.com" []) bulk_world
    = (Responded (Response_mk 200 (Text EmptyString)), bulk_world).
Proof.
  apply (request_unconfirm_form_repels_bots 1 (post_json "https://example.com" [])
           bulk_world).
  reflexivity.
Defined.

(** A GET to the endpoint of a form. *)
Lemma send_get_witness :
  ∃ r, send "xkdeqaj"
         {| req_method := "GET"; req_form := []; req_json := No_json;
            req_referrer := None; req_wants_json := true; req_path := "/xkdeqaj";
            req_browser := None; req_form_ids := [] |} sitewide_world
       = (r, sitewide_world) ∧ status_code r = 405.
Proof.
  apply (send_get "xkdeqaj"
           {| req_method := "GET"; req_form := []; req_json := No_json;
              req_referrer := None; req_wants_json := true; req_path := "/xkdeqaj";
              req_browser := None; req_form_ids := [] |} sitewide_world).
  reflexivity.
Defined.

(** A form posted from a page opened as a file: there is no referrer. *)
Lemma send_without_referrer_witness :
  ∃ r, send "owner@example.com"
         {| req_method := "POST"; req_form := jo; req_json := No_json;
            req_referrer := None; req_wants_json := false; req_path := "/";
            req_browser := Some "firefox"; req_form_ids := [] |} (world ∅)
       = (r, world ∅) ∧ status_code r = 400.
Proof.
  apply (send_without_referrer "owner@example.com"
           {| req_method := "POST"; req_form := jo; req_json := No_json;
              req_referrer := None; req_wants_json := false; req_path := "/";
              req_browser := Some "firefox"; req_form_ids := [] |} (world ∅));
    [discriminate|reflexivity|reflexivity].
Defined.

(** A hash-id that stands for no form. *)
Lemma send_unknown_target_witness :
  ∃ r w', send "nosuchform" (post "https://example.com" jo) sitewide_world = (r, w') ∧
          status_code r = 400 ∧ quiet sitewide_world w' ∧
          forms w' = forms sitewide_world.
Proof.
  apply (send_unknown_target "nosuchform" (post "https://example.com" jo)
           sitewide_world "example.com" (Some "https://example.com"));
    [split; [discriminate|vm_compute; reflexivity]|reflexivity|reflexivity].
Defined.

(** A dashboard form that has not seen a submission yet. *)
Lemma send_binds_first_host_witness :
  ∃ form' w',
    send_form "xkdeqaj" (post "https://example.com" jo) "example.com"
      (world (<[1 := set_host None (dashboard_form "example.com" false)]> ∅))
    = (inr (form', "owner@example.com"), w') ∧
    form_host form' = Some "example.com" ∧ forms w' !! 1 = Some form'.
Proof.
  apply (send_binds_first_host "xkdeqaj" (post "https://example.com" jo)
           "example.com"
           (world (<[1 := set_host None (dashboard_form "example.com" false)]> ∅))
           1 (set_host None (dashboard_form "example.com" false)));
    reflexivity.
Defined.

(** ** The further properties on concrete requests *)

Import Cases.

(** The bulk opt-out run on the table of three forms leaves a table in
    order. *)
Lemma unconfirm_multiple_keeps_table_witness :
  db_consistent (forms (unconfirm_multiple (bulk_request [1; 3]) bulk_world).2) ∧
  hash_unique (forms (unconfirm_multiple (bulk_request [1; 3]) bulk_world).2).
Proof.
  apply (unconfirm_multiple_keeps_table (bulk_request [1; 3]) bulk_world).
  - unfold db_consistent. apply (bool_decide_unpack _). vm_compute. exact I.
  - unfold hash_unique. apply (bool_decide_unpack _). vm_compute. exact I.
Defined.


(** A browser at the same form does not. *)
Lemma send_document_caller_witness :
  req_wants_json (post "https://example.com" jo) = false ∧
  body (send "xkdeqaj" (post "https://example.com" jo) (counted_world 1000)).1
    ≠ Json [("error", "form over quota")].
Proof.
  split; [reflexivity|].
  apply (send_document_caller "xkdeqaj" (post "https://example.com" jo)
           (counted_world 1000)).
  reflexivity.
Defined.

(** The round trip of the specification's example: {name: Jo} from
    https://example.com is challenged; the POST of the captcha page, sent
    from another page with the nonce and a passed captcha, is delivered for
    example.com with the referrer of the first request. *)
Lemma send_captcha_round_trip_witness :
  ∃ w2,
    send "xkdeqaj"
      (post "https://elsewhere.example"
         [("name", "Jo"); ("_host_nonce", "nonce-0");
          ("g-recaptcha-response", "passed")])
      (send "xkdeqaj" (post "https://example.com" jo) (counted_world 0)).2
    = (let '(status, w3) :=
         Form_send (dashboard_form "example.com" false)
           (send_received
              (post "https://elsewhere.example"
                 [("name", "Jo"); ("_host_nonce", "nonce-0");
                  ("g-recaptcha-response", "passed")])).1
           (send_received
              (post "https://elsewhere.example"
                 [("name", "Jo"); ("_host_nonce", "nonce-0");
                  ("g-recaptcha-response", "passed")])).2
           (Some "https://example.com") w2 in
       (send_respond
          (post "https://elsewhere.example"
             [("name", "Jo"); ("_host_nonce", "nonce-0");
              ("g-recaptcha-response", "passed")])
          "owner@example.com" "example.com" (Some "https://example.com") status,
        w3)).
Proof.
  destruct (send_captcha_round_trip "xkdeqaj" (post "https://example.com" jo)
              (post "https://elsewhere.example"
                 [("name", "Jo"); ("_host_nonce", "nonce-0");
                  ("g-recaptcha-response", "passed")])
              (counted_world 0) "example.com" (Some "https://example.com")
              (dashboard_form "example.com" false) "owner@example.com"
              (with_event (Query_hashid "xkdeqaj") (counted_world 0)))
    as (nonce & fhost & (template & lang & Hpage) & Hfhost & Hsecond).
  - unfold db_consistent. apply (bool_decide_unpack _). vm_compute. exact I.
  - unfold hash_unique. apply (bool_decide_unpack _). vm_compute. exact I.
  - split; [split; [discriminate|vm_compute; reflexivity]|vm_compute; reflexivity].
  - reflexivity.
  - intros Hvalid. vm_compute in Hvalid. discriminate Hvalid.
  - vm_compute. reflexivity.
  - assert (nonce = "nonce-0") as ->.
    { apply (f_equal (λ b, match b with
                           | CaptchaPage _ data _ _ _ => data !! "_host_nonce"
                           | _ => None
                           end)) in Hpage.
      cbv beta iota in Hpage. rewrite lookup_insert_eq in Hpage.
      vm_compute in Hpage. by injection Hpage. }
    injection Hfhost as <-.
    destruct Hsecond as (w2 & Hrun);
      [discriminate|vm_compute; reflexivity|vm_compute; reflexivity|].
    exists w2. exact Hrun.
Defined.

(** A browser asks for the unsubscribe mail of a form that does not
    exist. *)
Lemma request_unconfirm_form_missing_witness :
  ∃ w', request_unconfirm_form 5 click (world ∅) = (Raised (AttributeError "id"), w') ∧
        stores w' = stores (world ∅).
Proof.
  apply (request_unconfirm_form_missing 5 click (world ∅)); reflexivity.
Defined.

(** An unconfirm link for a form that does not exist. *)
Lemma unconfirm_form_missing_witness :
  ∃ w', unconfirm_form 5 "digest-5" click (world ∅)
          = (Reply_failed (NoneAttribute "unconfirm_with_digest"), w') ∧
        stores w' = stores (world ∅).
Proof.
  apply (unconfirm_form_missing 5 "digest-5" click (world ∅)). reflexivity.
Defined.

(** A guessed digest for form 1. *)
Lemma unconfirm_form_wrong_digest_witness :
  ∃ r w', unconfirm_form 1 "guess" click (world (forms bulk_world))
            = (Reply_response r, w') ∧
          status_code r = 400 ∧
          stores w' = stores (world (forms bulk_world)).
Proof.
  destruct (unconfirm_form_wrong_digest 1 "guess" click (world (forms bulk_world))
              (plain_form 1 "owner@example.com" "example.com"))
    as (reply & w' & Hrun & Hstores & Hget & _).
  - reflexivity.
  - intros Hdigest. vm_compute in Hdigest. discriminate Hdigest.
  - destruct (Hget eq_refl) as (r & -> & Hcode).
    exists r, w'. split; [exact Hrun|]. split; [exact Hcode|exact Hstores].
Defined.

(** The unconfirm link of form 1: the page offers the owner's other
    confirmed form, not the form of somebody else and not form 1 itself. *)
Lemma unconfirm_form_get_witness :
  ∃ other_forms w',
    unconfirm_form 1 "digest-1" click (world (forms bulk_world))
      = (Reply_unconfirm_page other_forms
           (set_confirmed false (plain_form 1 "owner@example.com" "example.com")),
         w') ∧
    unconfirming w' = Some "owner@example.com" ∧
    plain_form 2 "owner@example.com" "example.org" ∈ other_forms ∧
    (plain_form 3 "other@example.net" "example.net" ∉ other_forms) ∧
    (plain_form 1 "owner@example.com" "example.com" ∉ other_forms).
Proof.
  destruct (unconfirm_form_get 1 click (world (forms bulk_world))
              (plain_form 1 "owner@example.com" "example.com"))
    as (other_forms & w' & Hrun & _ & Hmarker & _ & Hothers); try reflexivity.
  exists other_forms, w'. split; [exact Hrun|]. split; [exact Hmarker|].
  split; [|split].
  - apply Hothers. exists 2. split; [discriminate|]. by split.
  - intros Hin. apply Hothers in Hin as (pk & _ & _ & _ & Hmail).
    vm_compute in Hmail. discriminate Hmail.
  - intros Hin. apply Hothers in Hin as (pk & Hne & Hrow & _).
    apply Hne.
    assert (form_id (plain_form 1 "owner@example.com" "example.com") = Some pk)
      as Hid.
    { assert (db_consistent (forms (world (forms bulk_world)))) as Hcons.
      { unfold db_consistent. apply (bool_decide_unpack _). vm_compute. exact I. }
      exact (Hcons pk _ Hrow). }
    by injection Hid.
Defined.

(** The one-click unsubscribe of form 1. *)
Lemma unconfirm_form_post_witness :
  ∃ w',
    unconfirm_form 1 "digest-1" one_click (world (forms bulk_world))
      = (Reply_response (Response_mk 200 (Text EmptyString)), w') ∧
    forms w' !! 1
      = Some (set_confirmed false (plain_form 1 "owner@example.com" "example.com")) ∧
    unconfirming w' = None.
Proof.
  destruct (unconfirm_form_post 1 one_click (world (forms bulk_world))
              (plain_form 1 "owner@example.com" "example.com"))
    as (w' & Hrun & Hforms & Hmarker & _); try reflexivity.
  exists w'. split; [exact Hrun|]. split; [|exact Hmarker].
  rewrite Hforms. reflexivity.
Defined.

(** The unconfirm link of form 1, then the bulk opt-out for forms 2 and 3:
    the owner's forms end unconfirmed, the form of somebody else does
    not. *)
Lemma unconfirm_form_then_multiple_witness :
  ∃ r w2,
    unconfirm_multiple (bulk_request [2; 3])
      (unconfirm_form 1 "digest-1" click (world (forms bulk_world))).2
      = (Responded r, w2) ∧
    status_code r = 200 ∧
    forms w2 !! 1
      = Some (set_confirmed false (plain_form 1 "owner@example.com" "example.com")) ∧
    forms w2 !! 2
      = Some (set_confirmed false (plain_form 2 "owner@example.com" "example.org")) ∧
    forms w2 !! 3 = Some (plain_form 3 "other@example.net" "example.net").
Proof.
  destruct (unconfirm_form_then_multiple 1 click (bulk_request [2; 3])
              (world (forms bulk_world))
              (plain_form 1 "owner@example.com" "example.com"))
    as (r & w2 & Hrun & Hcode & Hown & Hsame & Hother); try reflexivity.
  - discriminate.
  - intros pk Hin. apply list_elem_of_In in Hin.
    destruct Hin as [<-|[<-|[]]]; eexists; reflexivity.
  - exists r, w2. split; [exact Hrun|]. split; [exact Hcode|].
    split; [exact Hown|]. split.
    + apply (Hsame 2); [|reflexivity..]. apply list_elem_of_In. simpl. tauto.
    + apply (Hother 3); [reflexivity|discriminate].
Defined.

(** The unsubscribe mail for form 1 and the link in it. *)
Lemma request_unconfirm_form_link_witness :
  ∃ w1 m,
    (request_unconfirm_form 1 click (world (forms bulk_world))).2 = w1 ∧
    outbox w1 = [m] ∧ mail_to m = "owner@example.com" ∧
    ∃ other_forms w2,
      unconfirm_form 1 "digest-1" click w1
        = (Reply_unconfirm_page other_forms
             (set_confirmed false (plain_form 1 "owner@example.com" "example.com")),
           w2).
Proof.
  destruct (request_unconfirm_form_link 1 click click (world (forms bulk_world))
              (plain_form 1 "owner@example.com" "example.com"))
    as (w1 & m & digest & Hw1 & Hout & Hto & Hbody & other_forms & w2 & Hrun & _);
    try reflexivity.
  exists w1, m. split; [exact Hw1|]. split; [exact Hout|]. split; [exact Hto|].
  exists other_forms, w2.
  assert (digest = "digest-1") as <-; [|exact Hrun].
  rewrite <- Hw1 in Hout. vm_compute in Hout. injection Hout as <-.
  vm_compute in Hbody. by injection Hbody.
Defined.

(** A resend for an address on the bounce list. *)
Lemma resend_confirmation_bounced_witness :
  ∃ r w',
    resend_confirmation "blocked@example.com" (provider_request "example.com")
      (world ∅) []
      = (Reply_response r, w', [Bounces_get "blocked@example.com"]) ∧
    status_code r = 200 ∧ outbox w' = [] ∧ trace w' = [Captcha_check].
Proof.
  destruct (resend_confirmation_bounced "blocked@example.com"
              (provider_request "example.com") (world ∅) []
              "550 mailbox unavailable")
    as (r & w' & Hrun & Hcode & Hstores & Htrace & _).
  - vm_compute. reflexivity.
  - vm_compute. reflexivity.
  - exists r, w'. split; [exact Hrun|]. split; [exact Hcode|].
    split; [by injection Hstores|exact Htrace].
Defined.


(** The specification's example: {name: Jo} sent to owner@example.com from
    https://example.com/contact, then a resend for the same address and
    host. *)
Lemma send_then_resend_witness :
  ∃ first w2 r w3 second,
    (send "owner@example.com" (post "https://example.com/contact" jo) (world ∅)).2
      = w2 ∧
    outbox w2 = [first] ∧ mail_to first = "owner@example.com" ∧
    resend_confirmation "owner@example.com" (provider_request "example.com") w2 []
      = (Reply_response r, w3, [Bounces_get "owner@example.com"]) ∧
    status_code r = 200 ∧ outbox w3 = [first; second] ∧
    mail_to second = "owner@example.com" ∧ forms w3 = forms w2.
Proof.
  destruct (send_then_resend "owner@example.com"
              (post "https://example.com/contact" jo)
              (provider_request "example.com") (world ∅) []
              "example.com" (Some "https://example.com/contact")
              new_form "owner@example.com"
              (with_event (Query_hash "owner@example.com|example.com")
                 (world (<[0 := new_form]> ∅))))
    as (first & w2 & r & w3 & second & Hw2 & Hout & Hto & Hrun & Hcode & Hout3
        & Hto3 & _ & Hforms).
  - split; [split; [discriminate|vm_compute; reflexivity]|vm_compute; reflexivity].
  - vm_compute. reflexivity.
  - reflexivity.
  - reflexivity.
  - apply map_Forall_empty.
  - apply map_Forall_empty.
  - vm_compute. reflexivity.
  - vm_compute. reflexivity.
  - vm_compute. reflexivity.
  - exists first, w2, r, w3, second. split; [exact Hw2|]. split; [exact Hout|].
    split; [exact Hto|]. split; [exact Hrun|]. split; [exact Hcode|].
    split; [by rewrite Hout3, Hout|]. split; [|exact Hforms].
    rewrite Hto3. exact Hto.
Defined.

(** Unblocking the address the provider has on its list. *)
Lemma unblock_email_post_witness :
  ∃ title text w',
    unblock_email "blocked@example.com" (provider_request "example.com")
      (world ∅) []
      = (Reply_response (Response_mk 200 (Page "info.html" title text)), w',
         [Bounces_delete "blocked@example.com"]).
Proof.
  destruct (unblock_email_post "blocked@example.com"
              (provider_request "example.com") (world ∅) [])
    as (reply & w' & Hrun & Hreply).
  - reflexivity.
  - vm_compute. reflexivity.
  - vm_compute in Hreply. destruct Hreply as (title & text & ->).
    exists title, text, w'. exact Hrun.
Defined.

(** The CSV export of a form with two archived submissions, one of them
    without an email. *)
Lemma export_submissions_csv_witness :
  ∃ rows w',
    export_submissions "xkdeqaj" (Some "csv") (Some owner)
      (archive_world (<[1 := dashboard_form "example.com" false]> ∅)
         [(1, {["name" := "Jo"]});
          (2, {["name" := "Mo"]});
          (1, {["name" := "Al"; "email" := "al@example.com"]})])
      = (Reply_csv_file "form-xkdeqaj-submissions-2019-03-01T12:00:00.csv"
           ["id"; "email"; "name"] rows, w') ∧
    length rows = 2%nat ∧
    rows !! 0%nat = Some [EmptyString; EmptyString; "Jo"] ∧
    rows !! 1%nat = Some [EmptyString; "al@example.com"; "Al"].
Proof.
  destruct (export_submissions_csv "xkdeqaj" owner
              (archive_world (<[1 := dashboard_form "example.com" false]> ∅)
                 [(1, {["name" := "Jo"]});
                  (2, {["name" := "Mo"]});
                  (1, {["name" := "Al"; "email" := "al@example.com"]})])
              1 (dashboard_form "example.com" false)
              [{["name" := "Jo"]}; {["name" := "Al"; "email" := "al@example.com"]}]
              ["email"; "name"])
    as (rows & w' & Hrun & Hlen & Hrows).
  - apply list_elem_of_In. simpl. tauto.
  - reflexivity.
  - reflexivity.
  - reflexivity.
  - vm_compute. reflexivity.
  - apply (bool_decide_unpack _). vm_compute. exact I.
  - exists rows, w'. split; [exact Hrun|]. split; [exact Hlen|].
    assert (∀ (i : nat) (sub : Data) (cells : list string),
              [{["name" := "Jo"]}; {["name" := "Al"; "email" := "al@example.com"]}]
                !! i = Some sub →
              cells = (λ field, default EmptyString (sub !! field))
                        <$> ["id"; "email"; "name"] →
              rows !! i = Some cells) as Hline.
    { intros i sub cells Hsub ->.
      destruct (Hrows i sub Hsub) as (row & -> & Hwidth & Hcells). f_equal.
      destruct row as [|c0 [|c1 [|c2 [|c3 row]]]]; try discriminate Hwidth.
      pose proof (Hcells 0%nat "id" eq_refl) as H0.
      pose proof (Hcells 1%nat "email" eq_refl) as H1.
      pose proof (Hcells 2%nat "name" eq_refl) as H2.
      simpl in H0, H1, H2. injection H0 as ->. injection H1 as ->.
      injection H2 as ->. reflexivity. }
    split.
    + apply (Hline 0%nat ({["name" := "Jo"]} : Data)); [reflexivity|].
      vm_compute. reflexivity.
    + apply (Hline 1%nat ({["name" := "Al"; "email" := "al@example.com"]} : Data));
        [reflexivity|].
      vm_compute. reflexivity.
Defined.

(** An export with the format left out. *)
Lemma export_submissions_other_format_witness :
  ∃ w', export_submissions "xkdeqaj" None (Some owner)
          (archive_world (<[1 := dashboard_form "example.com" false]> ∅) [])
          = (Reply_failed ReturnedNone, w') ∧
        stores w' = stores (archive_world (<[1 := dashboard_form "example.com" false]> ∅) []).
Proof.
  apply (export_submissions_other_format "xkdeqaj" None owner
           (archive_world (<[1 := dashboard_form "example.com" false]> ∅) [])
           1 (dashboard_form "example.com" false)); try reflexivity; try discriminate.
  apply list_elem_of_In. simpl. tauto.
Defined.
